(** * Live tracking engine of the transit backend

    A shallow embedding of [src/controllers/liveController.js],
    [src/realtime/socket.js] and [src/utils/redisClient.js] of the backend,
    with the properties of the live tracking engine proved over it.

    Modelling conventions.
    - A JavaScript number is a [num]: NaN, the two infinities, or a finite
      value.  Finite doubles are idealised as exact rationals kept in lowest
      terms; rounding error, overflow and the sign of zero are not modelled.
    - Request fields are typed as the driver client sends them
      ([LocationUpdate]: busId a string, lat, lng and speed numbers); any
      field may be absent.
    - Text kept in Redis is represented by what was serialised into it
      (type [cell]), so reading a number or a JSON array back is exact.
    - Handlers run one at a time; awaiting a store is a step of a state and
      exception monad over the [World]. *)

From Stdlib Require Import ZArith QArith Qround Qminmax Qabs Lia Lqa String List.
From stdpp Require Import gmap strings list fin_maps.

#[local] Open Scope Z_scope.
#[local] Open Scope string_scope.

(** ** JavaScript numbers *)

Inductive num : Type :=
| NaN
| PInf
| NInf
| Fin (q : Q).

(** Sign tests on rationals, as booleans. *)
Definition Qneg (q : Q) : bool := Z.ltb (Qnum q) 0.
Definition Qzero (q : Q) : bool := Z.eqb (Qnum q) 0.
Definition Qltb (x y : Q) : bool := negb (Qle_bool y x).

(** [Number.isFinite(n)] *)
Definition isFinite (n : num) : bool :=
  match n with Fin _ => true | _ => false end.

(** [a + b] *)
Definition jadd (a b : num) : num :=
  match a, b with
  | NaN, _ | _, NaN => NaN
  | PInf, NInf | NInf, PInf => NaN
  | PInf, _ | _, PInf => PInf
  | NInf, _ | _, NInf => NInf
  | Fin x, Fin y => Fin (Qred (x + y))
  end.

(** [a - b] *)
Definition jsub (a b : num) : num :=
  match a, b with
  | NaN, _ | _, NaN => NaN
  | PInf, PInf | NInf, NInf => NaN
  | PInf, _ | _, NInf => PInf
  | NInf, _ | _, PInf => NInf
  | Fin x, Fin y => Fin (Qred (x - y))
  end.

(** The infinity of the given sign. *)
Definition inf (negative : bool) : num := if negative then NInf else PInf.

(** [a * b] *)
Definition jmul (a b : num) : num :=
  match a, b with
  | NaN, _ | _, NaN => NaN
  | Fin x, Fin y => Fin (Qred (x * y))
  | Fin x, PInf | PInf, Fin x => if Qzero x then NaN else inf (Qneg x)
  | Fin x, NInf | NInf, Fin x => if Qzero x then NaN else inf (negb (Qneg x))
  | PInf, PInf | NInf, NInf => PInf
  | PInf, NInf | NInf, PInf => NInf
  end.

(** [a / b]; a zero divisor counts as positive zero. *)
Definition jdiv (a b : num) : num :=
  match a, b with
  | NaN, _ | _, NaN => NaN
  | Fin x, Fin y =>
      if Qzero y then (if Qzero x then NaN else inf (Qneg x))
      else Fin (Qred (x / y))
  | Fin _, _ => Fin 0
  | PInf, Fin y => inf (Qneg y)
  | NInf, Fin y => inf (negb (Qneg y))
  | _, _ => NaN
  end.

(** [a < b] *)
Definition jlt (a b : num) : bool :=
  match a, b with
  | NaN, _ | _, NaN => false
  | _, NInf | PInf, _ => false
  | NInf, _ | _, PInf => true
  | Fin x, Fin y => Qltb x y
  end.

(** [a <= b] *)
Definition jle (a b : num) : bool :=
  match a, b with
  | NaN, _ | _, NaN => false
  | NInf, _ | _, PInf => true
  | _, NInf | PInf, _ => false
  | Fin x, Fin y => Qle_bool x y
  end.

(** [a >= b] *)
Definition jge (a b : num) : bool := jle b a.

(** [Math.max(a, b)] *)
Definition jmax (a b : num) : num :=
  match a, b with
  | NaN, _ | _, NaN => NaN
  | PInf, _ | _, PInf => PInf
  | NInf, x | x, NInf => x
  | Fin x, Fin y => if Qle_bool x y then Fin y else Fin x
  end.

(** [Math.round(q)] on a finite value: the nearest integer, halves up. *)
Definition Qround_half_up (q : Q) : Z := Qfloor (q + (1 # 2)).

(** [Math.round(a)] *)
Definition jround (a : num) : num :=
  match a with
  | Fin q => Fin (inject_Z (Qround_half_up q))
  | other => other
  end.

(** [a || 0] on a number: NaN and zero are falsy. *)
Definition or0 (a : num) : num :=
  match a with
  | NaN => Fin 0
  | Fin q => if Qzero q then Fin 0 else Fin q
  | other => other
  end.

(** A request field that may be absent: [Number(undefined)] is NaN. *)
Definition Number (v : option num) : num :=
  match v with Some n => n | None => NaN end.

(** ** Text kept in Redis *)

Record Stop : Type := mkStop {
  stopId : string;
  name : string;
  latitude : num;
  longitude : num;
}.

(** A Redis string, by what it was made from.  [CText s] stands for a text
    that reads neither as a number nor as a date nor as JSON: an id, a
    truncated entry, the empty string.  JSON text of another shape than the
    two arrays the code writes is not represented. *)
Inductive cell : Type :=
| CNum (n : num)                    (* String(n), the decimal text of n *)
| CIso (t : Z)                      (* new Date(t).toISOString() *)
| CText (s : string)                (* any other text: an id, damaged content *)
| CCoords (c : list (num * num))    (* JSON.stringify of [[lng,lat],...] *)
| CStops (s : list Stop).           (* JSON.stringify of the stop array *)

(** [Number(s)] on a stored text. *)
Definition NumberOfCell (c : cell) : num :=
  match c with
  | CNum n => n
  | CText "" => Fin 0
  | _ => NaN
  end.

(** Truthiness of a stored text: only the empty string is falsy. *)
Definition truthy (c : cell) : bool :=
  match c with
  | CText "" => false
  | _ => true
  end.

(** ** computeAverageSpeed *)

Definition computeAverageSpeed (speeds : list cell) : num :=
  let nums := filter (fun n => isFinite n && jge n (Fin 0) = true)
                     (map NumberOfCell speeds) in
  if Nat.eqb (length nums) 0 then Fin 0
  else
    jdiv (jround (jmul (jdiv (foldl jadd (Fin 0) nums)
                             (Fin (inject_Z (Z.of_nat (length nums)))))
                       (Fin 10)))
         (Fin 10).

(** ** The stores

    Mongo holds the durable documents and is only read here.  Redis holds
    hashes and lists under string keys.  The Socket.IO server is the
    module variable [io] of socket.js together with what has been emitted. *)

Record BusDoc : Type := mkBusDoc {
  bus_routeId : string;
}.

Record RouteDoc : Type := mkRouteDoc {
  route_stops : option (list Stop);
}.

Record PolylineDoc : Type := mkPolylineDoc {
  geometry : string;                 (* encoded polyline *)
}.

Inductive Status : Type := Online | Offline.

Record LatLng : Type := mkLatLng {
  ll_lat : num;
  ll_lng : num;
}.

Record EtaStop : Type := mkEtaStop {
  eta_stopId : string;
  eta_name : string;
  etaMinutes : num;
}.

(** The composite object built by both handlers. *)
Record Payload : Type := mkPayload {
  p_busId : string;
  p_routeId : string;
  snappedLocation : option LatLng;
  avgSpeed : num;
  lastUpdated : option cell;
  etaStops : list EtaStop;
  p_status : Status;
}.

(** One [emit] on the Socket.IO server: [io.to(room).emit(event, data)], or
    [io.emit(event, data)] when there is no room. *)
Record Emission : Type := mkEmission {
  room : option string;
  event : string;
  data : Payload;
}.

Record World : Type := mkWorld {
  buses : gmap string BusDoc;            (* Bus collection, by busId *)
  routes : gmap string RouteDoc;         (* Route collection, by _id *)
  polylines : gmap string PolylineDoc;   (* Polyline collection, by routeId *)
  hashes : gmap string (gmap string cell);
  lists : gmap string (list cell);
  io : bool;                             (* initSocket has run *)
  emitted : list Emission;               (* oldest first *)
}.

Definition set_hashes (h : gmap string (gmap string cell)) (w : World) : World :=
  mkWorld (buses w) (routes w) (polylines w) h (lists w) (io w) (emitted w).

Definition set_lists (l : gmap string (list cell)) (w : World) : World :=
  mkWorld (buses w) (routes w) (polylines w) (hashes w) l (io w) (emitted w).

Definition set_emitted (e : list Emission) (w : World) : World :=
  mkWorld (buses w) (routes w) (polylines w) (hashes w) (lists w) (io w) e.

(** The calls that leave the process. *)
Inductive op : Type :=
| Hset | Hgetall | Lpush | Ltrim | Lrange
| BusFindOne | PolylineFindOne | RouteFindById.

(** What one request sees of the outside: the clock, and which store calls
    reject (network failure, wrong key type, cast error), by call and key. *)
Record Env : Type := mkEnv {
  now : Z;                               (* Date.now(), milliseconds *)
  rejects : op -> string -> bool;
}.

(** ** Awaiting: state and exceptions *)

Inductive result (A : Type) : Type :=
| Ok (a : A)
| Throw.
Arguments Ok {A} a.
Arguments Throw {A}.

Definition M (A : Type) : Type := World -> result A * World.

Definition ret {A} (a : A) : M A := fun w => (Ok a, w).

Definition throw {A} : M A := fun w => (Throw, w).

Definition bind {A B} (m : M A) (k : A -> M B) : M B :=
  fun w => match m w with
           | (Ok a, w') => k a w'
           | (Throw, w') => (Throw, w')
           end.

(** [try { m } catch (err) { h }] *)
Definition try_catch {A} (m : M A) (h : M A) : M A :=
  fun w => match m w with
           | (Ok a, w') => (Ok a, w')
           | (Throw, w') => h w'
           end.

(** A pure library call that may throw. *)
Definition lift {A} (o : option A) : M A :=
  match o with Some a => ret a | None => throw end.

Notation "'await' x <- m ; k" := (bind m (fun x => k))
  (at level 10, x name, m at level 100, k at level 200,
   format "'[v' 'await'  x  <-  m ; '/' k ']'").
Notation "'exec' m ; k" := (bind m (fun _ => k))
  (at level 10, m at level 100, k at level 200,
   format "'[v' 'exec'  m ; '/' k ']'").

(** ** Third-party libraries

    [@mapbox/polyline] and [@turf/turf] are not part of the repository; the
    engine is parametric in them.  [None] stands for a call that throws. *)

Record GeoLine : Type := mkGeoLine { line_coordinates : list (num * num) }.
Record GeoPoint : Type := mkGeoPoint { point_coordinates : num * num }.

(** The feature returned by [turf.nearestPointOnLine]. *)
Record Snapped : Type := mkSnapped {
  snap_coordinates : num * num;      (* geometry.coordinates, [lng, lat] *)
  location : option num;             (* properties.location *)
}.

Record Libs : Type := mkLibs {
  polyline_decode : string -> option (list (num * num));   (* [[lat,lng],...] *)
  lineString : list (num * num) -> option GeoLine;
  point : num * num -> option GeoPoint;
  nearestPointOnLine : GeoLine -> GeoPoint -> option Snapped;
}.

(** ** redisClient.js *)

Section Handlers.

Variable lib : Libs.
Variable env : Env.

(** A store call that rejects throws before touching the store. *)
Definition call {A} (o : op) (key : string) (m : M A) : M A :=
  if rejects env o key then throw else m.

(** [hset(key, obj)]: sets the given fields, keeps the others. *)
Definition hset (key : string) (obj : list (string * cell)) : M unit :=
  call Hset key (fun w =>
    let old := default ∅ (hashes w !! key) in
    (Ok tt, set_hashes (<[key := list_to_map obj ∪ old]> (hashes w)) w)).

(** [hgetall(key)]: null when there is no such hash. *)
Definition hgetall (key : string) : M (option (gmap string cell)) :=
  call Hgetall key (fun w => (Ok (hashes w !! key), w)).

(** [lpush(key, value)] *)
Definition lpush (key : string) (value : cell) : M unit :=
  call Lpush key (fun w =>
    let old := default [] (lists w !! key) in
    (Ok tt, set_lists (<[key := value :: old]> (lists w)) w)).

(** [ltrim(key, start, stop)], for indexes counted from the head. *)
Definition ltrim (key : string) (start stop : nat) : M unit :=
  call Ltrim key (fun w =>
    let old := default [] (lists w !! key) in
    (Ok tt, set_lists (<[key := take (S stop - start) (drop start old)]> (lists w)) w)).

(** [lrange(key, start, stop)], for indexes counted from the head. *)
Definition lrange (key : string) (start stop : nat) : M (list cell) :=
  call Lrange key (fun w =>
    (Ok (take (S stop - start) (drop start (default [] (lists w !! key)))), w)).

(** ** The Mongo models *)

Definition Bus_findOne (busId : string) : M (option BusDoc) :=
  call BusFindOne busId (fun w => (Ok (buses w !! busId), w)).

Definition Polyline_findOne (routeId : string) : M (option PolylineDoc) :=
  call PolylineFindOne routeId (fun w => (Ok (polylines w !! routeId), w)).

Definition Route_findById (routeId : string) : M (option RouteDoc) :=
  call RouteFindById routeId (fun w => (Ok (routes w !! routeId), w)).

(** ** socket.js *)

Definition emitBusUpdate (routeId : string) (payload : Payload) : M unit :=
  fun w =>
    if negb (io w) then (Ok tt, w)
    else
      let room := if negb (String.eqb routeId "") then Some ("route:" ++ routeId)
                  else None in
      (Ok tt, set_emitted (emitted w ++ [mkEmission room "bus:update" payload]) w).

(** ** liveController.js *)

(** What [getRouteGeometryAndStops] resolves to. *)
Record Geometry : Type := mkGeometry {
  coords : option (list (num * num));   (* [[lng,lat],...] or null *)
  stops : option (list Stop);
}.

(** [JSON.parse] of a cached text, where the coordinate array is expected;
    [None] stands for the SyntaxError.  The fields of a route entry hold
    what line 41 wrote or a [CText]; a cell of another kind under them is
    outside the modelled states. *)
Definition JSON_parse_coords (c : cell) : option (list (num * num)) :=
  match c with CCoords x => Some x | _ => None end.

(** [JSON.parse] of a cached text, where the stop array is expected. *)
Definition JSON_parse_stops (c : cell) : option (list Stop) :=
  match c with CStops x => Some x | _ => None end.

(** Lines 22-28: the cached entry, when it has both fields and both parse. *)
Definition cachedGeometry (cached : option (gmap string cell)) : option Geometry :=
  match cached with
  | None => None
  | Some h =>
      match h !! "polyline", h !! "stops" with
      | Some p, Some s =>
          if truthy p && truthy s then
            match JSON_parse_coords p, JSON_parse_stops s with
            | Some c, Some st => Some (mkGeometry (Some c) (Some st))
            | _, _ => None
            end
          else None
      | _, _ => None
      end
  end.

(** Lines 29-45: load from Mongo, decode, store in Redis for next time. *)
Definition geometryFromMongo (routeId : string) : M Geometry :=
  let redisKey := "route:" ++ routeId in
  await polyDoc <- Polyline_findOne routeId;
  await routeDoc <- Route_findById routeId;
  match polyDoc, routeDoc with
  | Some polyDoc, Some routeDoc =>
      await latLng <- lift (polyline_decode lib (geometry polyDoc));
      let coords := map (fun p : num * num => (snd p, fst p)) latLng in
      let stops := default [] (route_stops routeDoc) in
      exec hset redisKey [("polyline", CCoords coords); ("stops", CStops stops)];
      ret (mkGeometry (Some coords) (Some stops))
  | _, _ => ret (mkGeometry None None)
  end.

Definition getRouteGeometryAndStops (routeId : string) : M Geometry :=
  let redisKey := "route:" ++ routeId in
  await cached <- hgetall redisKey;
  match cachedGeometry cached with
  | Some g => ret g
  | None => geometryFromMongo routeId
  end.

(** Lines 67-70: minutes to a stop from the two arc offsets and the speed. *)
Definition minutesUntil (stopDistKm busDistKm kmh : num) : num :=
  let remainingKm := jsub stopDistKm busDistKm in
  let remainingKm := if jlt remainingKm (Fin 0) then Fin 0 else remainingKm in
  let hours := jdiv remainingKm kmh in
  jround (jmul hours (Fin 60)).

(** Lines 64-72: the entry computed for one stop. *)
Definition etaForStop (line : GeoLine) (busDistKm kmh : num) (s : Stop)
  : option EtaStop :=
  pt ← point lib (longitude s, latitude s);
  p ← nearestPointOnLine lib line pt;
  let stopDistKm := or0 (Number (location p)) in
  let minutes := minutesUntil stopDistKm busDistKm kmh in
  Some (mkEtaStop (stopId s) (name s) minutes).

(** [computeSnappedAndEtas(coords, stops, busPoint, avgSpeedKmh)]; [None]
    when a turf call throws. *)
Definition computeSnappedAndEtas (coords : option (list (num * num)))
    (stops : option (list Stop)) (busPoint : LatLng) (avgSpeedKmh : num)
  : option (option LatLng * list EtaStop) :=
  match coords with
  | None | Some [] => Some (None, [])
  | Some cs =>
      line ← lineString lib cs;
      bus ← point lib (ll_lng busPoint, ll_lat busPoint);
      snapped ← nearestPointOnLine lib line bus;
      let busDistKm := or0 (Number (location snapped)) in
      let kmh := jmax (Fin 1) (or0 avgSpeedKmh) in
      etaStops ← mapM (etaForStop line busDistKm kmh) (default [] stops);
      Some (Some (mkLatLng (snd (snap_coordinates snapped))
                           (fst (snap_coordinates snapped))),
            etaStops)
  end.

(** The body of [POST /api/bus/update-location]. *)
Record LocationUpdate : Type := mkLocationUpdate {
  busId : option string;
  lat : option num;
  lng : option num;
  speed : option num;
}.

(** What [res.json] sends: an error object, or the composite, each with or
    without a [success] field. *)
Inductive ResBody : Type :=
| Message (success : option bool) (message : string)
| Composite (success : option bool) (p : Payload).

Record Response : Type := mkResponse {
  status : nat;
  body : ResBody;
}.

(** [!busId] *)
Definition falsy (s : option string) : bool :=
  match s with
  | None => true
  | Some s => String.eqb s ""
  end.

(** [String(v)] of a request field. *)
Definition StringOf (v : option num) : cell :=
  match v with
  | Some n => CNum n
  | None => CText "undefined"
  end.

(** Lines 95-141: the report of a known bus. *)
Definition trackAndBroadcast (b : LocationUpdate) (id : string) (busDoc : BusDoc)
  : M Response :=
  let routeId := bus_routeId busDoc in
  let nowIso := CIso (now env) in
  let redisKey := "bus:" ++ id in
  exec hset redisKey [("lastLat", StringOf (lat b));
                      ("lastLng", StringOf (lng b));
                      ("lastUpdated", nowIso);
                      ("routeId", CText routeId)];
  exec (if isFinite (Number (speed b)) then
          exec lpush ("bus:" ++ id ++ ":speeds") (StringOf (speed b));
          ltrim ("bus:" ++ id ++ ":speeds") 0 2
        else ret tt);
  await speeds <- lrange ("bus:" ++ id ++ ":speeds") 0 2;
  let avgSpeed := computeAverageSpeed speeds in
  await g <- getRouteGeometryAndStops routeId;
  let raw := mkLatLng (Number (lat b)) (Number (lng b)) in
  await r <- lift (computeSnappedAndEtas (coords g) (stops g) raw avgSpeed);
  let payload :=
    mkPayload id routeId (Some (default raw (fst r))) avgSpeed
              (Some nowIso) (snd r) Online in
  exec emitBusUpdate routeId payload;
  ret (mkResponse 200 (Composite (Some true) payload)).

(** Lines 87-93, inside the [try]. *)
Definition validateAndTrack (req_body : option LocationUpdate) : M Response :=
  let b := default (mkLocationUpdate None None None None) req_body in
  if falsy (busId b) || negb (isFinite (Number (lat b)))
     || negb (isFinite (Number (lng b)))
  then ret (mkResponse 400 (Message (Some false) "busId, lat, lng are required"))
  else
    let id := default "" (busId b) in
    await busDoc <- Bus_findOne id;
    match busDoc with
    | None => ret (mkResponse 404 (Message (Some false) "Bus not found"))
    | Some busDoc => trackAndBroadcast b id busDoc
    end.

Definition updateBusLocation (req_body : option LocationUpdate) : M Response :=
  try_catch (validateAndTrack req_body)
            (ret (mkResponse 500 (Message (Some false) "Server error"))).

(** [busState?.field ? f(busState.field) : null] *)
Definition field (busState : option (gmap string cell)) (f : string) : option cell :=
  h ← busState; c ← h !! f; if truthy c then Some c else None.

(** [new Date(s).getTime()] of a stored text; only what [toISOString]
    wrote is taken to parse as a date. *)
Definition getTime (c : cell) : num :=
  match c with
  | CIso t => Fin (inject_Z t)
  | _ => NaN
  end.

(** Lines 155-199: the snapshot of a known bus. *)
Definition liveSnapshot (id : string) (busDoc : BusDoc) : M Response :=
  let routeId := bus_routeId busDoc in
  let redisKey := "bus:" ++ id in
  await busState <- hgetall redisKey;
  await speeds <- lrange ("bus:" ++ id ++ ":speeds") 0 2;
  let avgSpeed := computeAverageSpeed speeds in
  let lastLat := NumberOfCell <$> field busState "lastLat" in
  let lastLng := NumberOfCell <$> field busState "lastLng" in
  let lastUpdated := field busState "lastUpdated" in
  let status :=
    match lastUpdated with
    | Some lu =>
        let diff := jsub (Fin (inject_Z (now env))) (getTime lu) in
        if jle diff (Fin (inject_Z (90 * 1000))) then Online else Offline
    | None => Offline
    end in
  await g <- getRouteGeometryAndStops routeId;
  await r <- match lastLat, lastLng with
             | Some la, Some ln =>
                 lift (computeSnappedAndEtas (coords g) (stops g)
                                             (mkLatLng la ln) avgSpeed)
             | _, _ => ret (None, [])
             end;
  let raw := match lastLat, lastLng with
             | Some la, Some ln => Some (mkLatLng la ln)
             | _, _ => None
             end in
  let payload :=
    mkPayload id routeId
              (match fst r with Some s => Some s | None => raw end)
              avgSpeed lastUpdated (snd r) status in
  ret (mkResponse 200 (Composite None payload)).

Definition getLiveBus (id : string) : M Response :=
  try_catch
    (await busDoc <- Bus_findOne id;
     match busDoc with
     | None => ret (mkResponse 404 (Message None "Bus not found"))
     | Some busDoc => liveSnapshot id busDoc
     end)
    (ret (mkResponse 500 (Message None "Server error"))).

End Handlers.

(** * What the specification says, in its own words *)









(** * Vocabulary of the statements *)

(** The arc offset, in kilometres, that turf reports for a position on a
    line, as both call sites read it: [Number(p.properties.location) || 0]. *)
Definition offsetKm (lib : Libs) (line : GeoLine) (position : num * num)
  : option num :=
  pt ← point lib position;
  p ← nearestPointOnLine lib line pt;
  Some (or0 (Number (location p))).

(** The hot state after lines 100-111 have run: the bus hash holds the new
    position and time, and a finite speed has been pushed on the ring and
    the ring trimmed to three entries. *)
Definition recorded (env : Env) (b : LocationUpdate) (id routeId : string)
    (w : World) : World :=
  let redisKey := "bus:" ++ id in
  let ringKey := "bus:" ++ id ++ ":speeds" in
  let fields := [("lastLat", StringOf (lat b));
                 ("lastLng", StringOf (lng b));
                 ("lastUpdated", CIso (now env));
                 ("routeId", CText routeId)] in
  let w1 := set_hashes (<[redisKey := list_to_map fields
                                      ∪ default ∅ (hashes w !! redisKey)]>
                          (hashes w)) w in
  if isFinite (Number (speed b)) then
    set_lists (<[ringKey := take 3 (StringOf (speed b)
                                    :: default [] (lists w !! ringKey))]>
                 (lists w)) w1
  else w1.

(** The speed ring of a vehicle, as stored. *)
Definition speedRing (w : World) (id : string) : list cell :=
  default [] (lists w !! ("bus:" ++ id ++ ":speeds")).

(** A one-dimensional stand-in for the libraries, used in the examples: the
    line is the longitude axis, a position snaps to its foot on the axis and
    its arc offset is its longitude; every encoded polyline decodes to the
    segment from kilometre 0 to kilometre 10. *)
Definition axis_lib : Libs :=
  mkLibs (fun _ => Some [(Fin 0, Fin 0); (Fin 0, Fin 10)])
         (fun cs => if Nat.leb 2 (length cs) then Some (mkGeoLine cs) else None)
         (fun p => Some (mkGeoPoint p))
         (fun _ pt => Some (mkSnapped (fst (point_coordinates pt), Fin 0)
                                      (Some (fst (point_coordinates pt))))).

(** Two worlds that differ at most in what Redis holds under hash keys. *)
Definition same_but_hashes (w w' : World) : Prop :=
  buses w' = buses w /\ routes w' = routes w /\ polylines w' = polylines w
  /\ lists w' = lists w /\ io w' = io w /\ emitted w' = emitted w.

(** ** A small deployment for the examples *)

(** An outside in which every store call completes, at time [t]. *)
Definition calm (t : Z) : Env := mkEnv t (fun _ _ => false).

Definition R1_stops : list Stop :=
  [mkStop "A" "Connaught Place" (Fin 0) (Fin 0);
   mkStop "B" "Terminus" (Fin 0) (Fin 10)].

(** Vehicle V1 bound to route R1, nothing in Redis yet, Socket.IO started. *)
Definition depot : World :=
  mkWorld {[ "V1" := mkBusDoc "R1" ]}
          {[ "R1" := mkRouteDoc (Some R1_stops) ]}
          {[ "R1" := mkPolylineDoc "encoded" ]}
          ∅ ∅ true [].

(** A report of V1 at kilometre 4 with the given speed. *)
Definition report (speed : num) : option LocationUpdate :=
  Some (mkLocationUpdate (Some "V1") (Some (Fin 0)) (Some (Fin 4)) (Some speed)).

(** The response of a handler run. *)
Definition answer (run : result Response * World) : Response :=
  match fst run with
  | Ok r => r
  | Throw => mkResponse 0 (Message None "")
  end.

(** The deployment after V1 has reported once, at time 0, at 40 km/h. *)
Definition afterS1 : World :=
  snd (updateBusLocation axis_lib (calm 0) (report (Fin 40)) depot).

(** An outside in which only the write of the cache entry of route R1
    rejects. *)
Definition cache_write_down (t : Z) : Env :=
  mkEnv t (fun o key => match o with
                        | Hset => String.eqb key "route:R1"
                        | _ => false
                        end).

(** A cached field that is missing or does not hold JSON text: absent, the
    empty string, or some other text on which [JSON.parse] throws. *)
Definition damaged (f : option cell) : Prop :=
  match f with
  | None | Some (CText _) => True
  | Some _ => False
  end.

(** A cache miss: no entry under the key, or an entry with a damaged
    field. *)
Definition cache_miss (cached : option (gmap string cell)) : Prop :=
  match cached with
  | None => True
  | Some h => damaged (h !! "polyline") \/ damaged (h !! "stops")
  end.

(** The deployment with a damaged cache entry for R1: the polyline text is
    cut short and the stops field is gone. *)
Definition depot_damaged : World :=
  set_hashes {[ "route:R1" := {[ "polyline" := CText "[[0,0],[10" ]} ]} depot.





(** A sequence of ingest calls, each with its own outside, run one after
    the other; the answers come back in order. *)
Fixpoint ingestAll (lib : Libs) (calls : list (Env * option LocationUpdate))
    (w : World) : list Response * World :=
  match calls with
  | [] => ([], w)
  | c :: rest =>
      let run := updateBusLocation lib (fst c) (snd c) w in
      let later := ingestAll lib rest (snd run) in
      (answer run :: fst later, snd later)
  end.





(** The deployment before [initSocket] has run. *)
Definition depot_without_socket : World :=
  mkWorld (buses depot) (routes depot) (polylines depot) ∅ ∅ false [].

(** The deployment with V2 bound to a route R9 that has no documents. *)
Definition depot_unrouted : World :=
  mkWorld {[ "V2" := mkBusDoc "R9" ]} (routes depot) (polylines depot)
          ∅ ∅ true [].

(** The composite of a report, from what the report path has at hand. *)
Definition reportPayload (env : Env) (b : LocationUpdate) (id routeId : string)
    (ring : list cell) (snapped : option LatLng) (etas : list EtaStop) : Payload :=
  mkPayload id routeId
            (Some (default (mkLatLng (Number (lat b)) (Number (lng b))) snapped))
            (computeAverageSpeed (take 3 ring))
            (Some (CIso (now env))) etas Online.




(** An outside in which every store call completes. *)
Definition all_answer (env : Env) : Prop :=
  forall (o : op) (key : string), rejects env o key = false.

(** ** socket.js, the connection handlers

    A message a client sends on its socket: the event name and the routeId
    field of the object it carries (absent when the object has none, as
    with the rider page's [socket.emit('joinBus', busId)]). *)
Record ClientEvent : Type := mkClientEvent {
  ev_name : string;
  ev_routeId : option string;
}.

(** Lines 14-23, on the set of rooms the socket has joined: [socket.join]
    adds a room, [socket.leave] removes one, and an event without a
    registered handler does nothing. *)
Definition onClientEvent (rooms : gset string) (ev : ClientEvent) : gset string :=
  if String.eqb (ev_name ev) "subscribe:route" then
    if negb (falsy (ev_routeId ev))
    then {[ "route:" ++ default "" (ev_routeId ev) ]} ∪ rooms
    else rooms
  else if String.eqb (ev_name ev) "unsubscribe:route" then
    if negb (falsy (ev_routeId ev))
    then rooms ∖ {[ "route:" ++ default "" (ev_routeId ev) ]}
    else rooms
  else rooms.



(** ** The driver app's report queue (services/queue)

    Reports that could not be sent are kept in AsyncStorage under one key,
    as the JSON text of an array, and replayed by [flushQueue]. *)

Record QueuedLocationUpdate : Type := mkQueued {
  q_update : LocationUpdate;
  timestamp : Z;
  retryCount : Z;
}.

(** What AsyncStorage holds under the queue key: nothing (or the empty
    text), a text [JSON.parse] rejects, or the JSON text of a queue. *)
Inductive Stored : Type :=
| NoItem
| Damaged
| Holds (queue : list QueuedLocationUpdate).

(** [getQueue()]; a failing [getItem] and a failing parse both give the
    empty queue. *)
Definition getQueue (getItem_fails : bool) (st : Stored)
  : list QueuedLocationUpdate :=
  if getItem_fails then []
  else match st with
       | Holds queue => queue
       | NoItem | Damaged => []
       end.

(** [addToQueue(locationUpdate)] at time [now]; a failing [setItem] is
    logged and swallowed. *)
Definition addToQueue (getItem_fails setItem_fails : bool) (now : Z)
    (locationUpdate : LocationUpdate) (st : Stored) : Stored :=
  let existingQueue := getQueue getItem_fails st in
  let queuedUpdate := mkQueued locationUpdate now 0 in
  let updatedQueue := (existingQueue ++ [queuedUpdate])%list in
  if setItem_fails then st else Holds updatedQueue.

(** [getQueueLength()] *)
Definition getQueueLength (getItem_fails : bool) (st : Stored) : nat :=
  length (getQueue getItem_fails st).

Section FlushQueue.

(** The rest of the world a send acts on, and the send itself: [true] when
    the client's [updateBusLocation] resolves, [false] when it throws. *)
Variable Net : Type.
Variable send : LocationUpdate -> Net -> bool * Net.

(** One turn of the loop of lines 62-91. *)
Definition flushStep (acc : list QueuedLocationUpdate * Net)
    (queuedUpdate : QueuedLocationUpdate) : list QueuedLocationUpdate * Net :=
  let failedUpdates := fst acc in
  let sent := send (mkLocationUpdate (busId (q_update queuedUpdate))
                                     (lat (q_update queuedUpdate))
                                     (lng (q_update queuedUpdate))
                                     (speed (q_update queuedUpdate)))
                   (snd acc) in
  if fst sent then (failedUpdates, snd sent)
  else
    let updatedItem := mkQueued (q_update queuedUpdate) (timestamp queuedUpdate)
                                (retryCount queuedUpdate + 1) in
    if Z.ltb (retryCount updatedItem) 5
    then ((failedUpdates ++ [updatedItem])%list, snd sent)
    else (failedUpdates, snd sent).

(** [flushQueue()] *)
Definition flushQueue (getItem_fails setItem_fails : bool) (st : Stored) (s : Net)
  : Stored * Net :=
  let queue := getQueue getItem_fails st in
  if Nat.eqb (length queue) 0 then (st, s)
  else
    let done := foldl flushStep ([], s) queue in
    (if setItem_fails then st else Holds (fst done), snd done).

End FlushQueue.

(** How the sends of one flush went, in queue order, and the world after
    them. *)
Fixpoint sendAll {Net : Type} (send : LocationUpdate -> Net -> bool * Net)
    (queue : list QueuedLocationUpdate) (s : Net) : list bool * Net :=
  match queue with
  | [] => ([], s)
  | q :: rest =>
      let sent := send (mkLocationUpdate (busId (q_update q)) (lat (q_update q))
                                         (lng (q_update q)) (speed (q_update q)))
                       s in
      let later := sendAll send rest (snd sent) in
      (fst sent :: fst later, snd later)
  end.

(** A send that always throws, counting the attempts. *)
Definition unreachable_server (_ : LocationUpdate) (attempts : nat) : bool * nat :=
  (false, S attempts).


(** What one flush does to one queued item, given how its send went. *)
Definition after_send (item : QueuedLocationUpdate) (ok : bool)
  : option QueuedLocationUpdate :=
  if ok then None
  else if Z.ltb (retryCount item + 1) 5
       then Some (mkQueued (q_update item) (timestamp item) (retryCount item + 1))
       else None.

(** Flushing [n] times in a row against the unreachable server. *)
Definition flushes_unreachable (n : nat) (st : Stored) (attempts : nat)
  : Stored * nat :=
  Nat.iter n (fun x => flushQueue nat unreachable_server false false (fst x) (snd x))
           (st, attempts).



(** A send that resolves on every other attempt, counting the attempts. *)
Definition flaky_server (_ : LocationUpdate) (attempts : nat) : bool * nat :=
  (Nat.even attempts, S attempts).

(** Four queued reports of V1, two fresh and two on their last retry. *)
Definition queued_reports : list QueuedLocationUpdate :=
  [mkQueued (mkLocationUpdate (Some "V1") (Some (Fin 0)) (Some (Fin 1))
                              (Some (Fin 30))) 1000 0;
   mkQueued (mkLocationUpdate (Some "V1") (Some (Fin 0)) (Some (Fin 2))
                              (Some (Fin 60))) 2000 0;
   mkQueued (mkLocationUpdate (Some "V1") (Some (Fin 0)) (Some (Fin 3))
                              (Some (Fin 90))) 3000 4;
   mkQueued (mkLocationUpdate (Some "V1") (Some (Fin 0)) (Some (Fin 4))
                              (Some (Fin 0))) 4000 4].

(** ** The driver app's background location task (services/locationTask)

    The coordinates of a location as the operating system delivers them;
    the speed and the accuracy may be [null]. *)
Record Coords : Type := mkCoords {
  c_latitude : num;
  c_longitude : num;
  c_speed : option num;
  c_accuracy : option num;
}.

(** [location.coords.accuracy && location.coords.accuracy > 100] *)
Definition poorAccuracy (c : Coords) : bool :=
  match c_accuracy c with
  | None => false
  | Some a =>
      match a with
      | NaN => false
      | Fin q => negb (Qzero q) && jlt (Fin 100) a
      | PInf | NInf => jlt (Fin 100) a
      end
  end.

(** The [locationUpdate] object of lines 120-125. *)
Definition taskReport (busId : string) (c : Coords) : LocationUpdate :=
  mkLocationUpdate (Some busId) (Some (c_latitude c)) (Some (c_longitude c))
                   (Some (jmax (Fin 0) (or0 (Number (c_speed c))))).

(** One run of the task at time [now]: [data] is the list of locations
    ([None] when the task is run without data), [current_bus_id] what
    AsyncStorage holds for the bus, [busId_fails] whether reading it throws
    (the outer [catch] then ends the run). *)
Definition locationTask {Net : Type} (send : LocationUpdate -> Net -> bool * Net)
    (now : Z) (getItem_fails setItem_fails : bool)
    (error : bool) (data : option (list Coords))
    (busId_fails : bool) (current_bus_id : option string)
    (st : Stored) (s : Net) : Stored * Net :=
  if error then (st, s)
  else
    match data with
    | None => (st, s)
    | Some [] => (st, s)
    | Some (location :: _) =>
        if busId_fails then (st, s)
        else
          match current_bus_id with
          | None => (st, s)
          | Some busId =>
              if String.eqb busId "" then (st, s)
              else if poorAccuracy location then (st, s)
              else
                let locationUpdate := taskReport busId location in
                let sent := send locationUpdate s in
                if fst sent then (st, snd sent)
                else (addToQueue getItem_fails setItem_fails now locationUpdate st,
                      snd sent)
          end
    end.

(** A send that throws on its first attempt and resolves afterwards. *)
Definition late_server (_ : LocationUpdate) (attempts : nat) : bool * nat :=
  (negb (Nat.eqb attempts 0), S attempts).

(** ** services/orsService.js, the retry wrapper *)

Section Retry.

(** What a call of [callDirectionsORS] gives: a route of type [R], or the
    error it throws.  The [k]-th call made (from 0) gives
    [callDirectionsORS k]. *)
Variable R : Type.
Variable callDirectionsORS : nat -> R + string.

(** The loop of lines 62-71 with [attempt] and [delay] as they stand,
    after [calls] calls and [waited] milliseconds of timers. *)
Fixpoint retryLoop (fuel : nat) (retries attempt : nat) (delay : Z)
    (calls : nat) (waited : Z) : option ((R + string) * nat * Z) :=
  match fuel with
  | O => None
  | S fuel =>
      match callDirectionsORS calls with
      | inl route => Some (inl route, S calls, waited)
      | inr err =>
          if Nat.leb retries attempt then Some (inr err, S calls, waited)
          else retryLoop fuel retries (S attempt) (delay * 2) (S calls)
                         (waited + delay)
      end
  end.

(** [callORSWithRetry(coords, retries = 2)]: the result or the error
    thrown, the number of calls made and the time spent waiting. *)
Definition callORSWithRetry (fuel : nat) (retries : option nat)
  : option ((R + string) * nat * Z) :=
  retryLoop fuel (default 2%nat retries) 0 500 0 0.

End Retry.

(** A service that answers on the third call. *)
Definition third_time_lucky (k : nat) : string + string :=
  if Nat.ltb k 2 then inr "ORS error 503: busy" else inl "encoded".

(** A service that never answers. *)
Definition ors_down (k : nat) : string + string :=
  inr (if Nat.eqb k 2 then "ORS error 502: gateway" else "ORS error 500: down").

(** ** routeController.js, the polyline of a saved route *)

Definition set_polylines (p : gmap string PolylineDoc) (w : World) : World :=
  mkWorld (buses w) (routes w) p (hashes w) (lists w) (io w) (emitted w).

Section Admin.

Variable lib : Libs.
Variable env : Env.

(** The directions service as this call finds it, answering with the
    encoded geometry, and whether [Polyline.create] rejects. *)
Variable callDirectionsORS : nat -> string + string.
Variable create_rejects : bool.

(** [await callORSWithRetry(coords)]; three turns of its loop are all the
    default of two retries allows. *)
Definition directions : M string :=
  lift (match callORSWithRetry string callDirectionsORS 3 None with
        | Some (inl geometry, _, _) => Some geometry
        | _ => None
        end).

(** [Polyline.create(doc)] for the route [routeId]. *)
Definition Polyline_create (routeId : string) (doc : PolylineDoc) : M PolylineDoc :=
  fun w =>
    if create_rejects then (Throw, w)
    else (Ok doc, set_polylines (<[routeId := doc]> (polylines w)) w).

(** [computeAndStorePolyline(route)], lines 16-52, for the route document
    [route] saved under [_id]; [None] stands for [undefined]. *)
Definition computeAndStorePolyline (_id : string) (route : RouteDoc)
  : M (option PolylineDoc) :=
  try_catch
    (await exists_ <- Polyline_findOne env _id;
     match exists_ with
     | Some _ => ret None
     | None =>
         await stops <- lift (route_stops route);
         await geometry <- directions;
         await created <- Polyline_create _id (mkPolylineDoc geometry);
         exec try_catch
                (await latLng <- lift (polyline_decode lib geometry);
                 let coordsLngLat := map (fun p : num * num => (snd p, fst p)) latLng in
                 hset env ("route:" ++ _id)
                      [("polyline", CCoords coordsLngLat);
                       ("stops", CStops (default [] (route_stops route)))])
                (ret tt);
         ret (Some created)
     end)
    (ret None).

End Admin.

(** The deployment when route R1 has just been saved: no polyline document
    and no cache entry yet. *)
Definition depot_new_route : World :=
  mkWorld (buses depot) (routes depot) ∅ ∅ ∅ true [].

(** * Properties *)

(** ** Arithmetic on finite numbers *)

Lemma Qzero_true (q : Q) : Qzero q = true <-> (q == 0)%Q.
Proof.
  unfold Qzero, Qeq. simpl. rewrite Z.eqb_eq. lia.
Qed.

Lemma Qzero_false (q : Q) : Qzero q = false <-> ~ (q == 0)%Q.
Proof.
  rewrite <- Qzero_true. destruct (Qzero q); split; congruence.
Qed.

Lemma Qltb_true (x y : Q) : Qltb x y = true <-> (x < y)%Q.
Proof.
  unfold Qltb. rewrite negb_true_iff, <- not_true_iff_false, Qle_bool_iff.
  split; [apply Qnot_le_lt | apply Qlt_not_le].
Qed.

Lemma Qltb_false (x y : Q) : Qltb x y = false <-> (y <= x)%Q.
Proof.
  unfold Qltb. rewrite negb_false_iff. apply Qle_bool_iff.
Qed.

Lemma Qround_half_up_comp (x y : Q) :
  (x == y)%Q -> Qround_half_up x = Qround_half_up y.
Proof.
  intros E. unfold Qround_half_up. apply Qfloor_comp. rewrite E. reflexivity.
Qed.

Lemma Qround_half_up_mono (x y : Q) :
  (x <= y)%Q -> Qround_half_up x <= Qround_half_up y.
Proof.
  intros L. unfold Qround_half_up. apply Qfloor_resp_le. lra.
Qed.

(** [Math.round] lands within one half of its argument. *)
Lemma Qround_half_up_near (x : Q) :
  (Qabs (inject_Z (Qround_half_up x) - x) <= 1 # 2)%Q.
Proof.
  unfold Qround_half_up.
  pose proof (Qfloor_le (x + (1 # 2))) as Hlo.
  pose proof (Qlt_floor (x + (1 # 2))) as Hhi.
  rewrite inject_Z_plus in Hhi. change (inject_Z 1) with 1%Q in Hhi.
  apply Qabs_Qle_condition. split; lra.
Qed.

(** ** computeAverageSpeed *)







(** ** computeSnappedAndEtas *)

(** Minutes at a finite speed of at least 1 km/h. *)
Lemma minutesUntil_finite (so vo k : Q) :
  (1 <= k)%Q ->
  minutesUntil (Fin so) (Fin vo) (Fin k)
  = Fin (inject_Z (Qround_half_up (Qmax (so - vo) 0 / k * 60))).
Proof.
  intros Hk. unfold minutesUntil. cbn [jsub jlt].
  assert (Hz : Qzero k = false) by (apply Qzero_false; lra).
  assert (Hr : forall r : Q, (r == Qmax (so - vo) 0)%Q ->
            jround (jmul (jdiv (Fin r) (Fin k)) (Fin 60))
            = Fin (inject_Z (Qround_half_up (Qmax (so - vo) 0 / k * 60)))).
  { intros r E. cbn [jdiv]. rewrite Hz. cbn [jmul jround].
    do 2 f_equal. apply Qround_half_up_comp.
    rewrite !Qred_correct, E. reflexivity. }
  destruct (Qltb (Qred (so - vo)) 0) eqn:L.
  - apply Qltb_true in L. rewrite Qred_correct in L.
    apply Hr. rewrite Q.max_r by lra. reflexivity.
  - apply Qltb_false in L. rewrite Qred_correct in L.
    apply Hr. rewrite Q.max_l by lra. apply Qred_correct.
Qed.

(** At an infinite speed every stop is zero minutes away. *)
Lemma minutesUntil_PInf (so vo : Q) :
  minutesUntil (Fin so) (Fin vo) PInf = Fin 0.
Proof.
  unfold minutesUntil. cbn [jsub jlt].
  destruct (Qltb (Qred (so - vo)) 0); reflexivity.
Qed.

(** The speed used for the estimate is at least 1 km/h. *)
Lemma kmh_floor (avg : num) :
  jmax (Fin 1) (or0 avg) = PInf
  \/ exists k : Q, jmax (Fin 1) (or0 avg) = Fin k /\ (1 <= k)%Q.
Proof.
  destruct avg as [| | |a]; cbn; [right|left|right|right]; try reflexivity.
  - exists 1%Q. split; [reflexivity | lra].
  - exists 1%Q. split; [reflexivity | lra].
  - destruct (Qzero a); cbn.
    + exists 1%Q. split; [reflexivity | lra].
    + destruct (Qle_bool 1 a) eqn:L.
      * exists a. split; [reflexivity|]. apply Qle_bool_iff, L.
      * exists 1%Q. split; [reflexivity | lra].
Qed.

Lemma kmh_finite (a : Q) :
  exists k : Q, jmax (Fin 1) (or0 (Fin a)) = Fin k /\ (k == Qmax a 1)%Q.
Proof.
  cbn [or0]. destruct (Qzero a) eqn:Z.
  - apply Qzero_true in Z. exists 1%Q. split; [reflexivity|].
    rewrite Q.max_r by lra. reflexivity.
  - cbn [jmax]. destruct (Qle_bool 1 a) eqn:L.
    + apply Qle_bool_iff in L. exists a. split; [reflexivity|].
      rewrite Q.max_l by lra. reflexivity.
    + exists 1%Q. split; [reflexivity|].
      assert (~ (1 <= a)%Q) by (rewrite <- Qle_bool_iff; congruence).
      rewrite Q.max_r by lra. reflexivity.
Qed.

Section Etas.

Variable lib : Libs.
Variable line : GeoLine.

Lemma offsetKm_inv (position : num * num) (o : num) :
  offsetKm lib line position = Some o ->
  exists pt p, point lib position = Some pt
               /\ nearestPointOnLine lib line pt = Some p
               /\ or0 (Number (location p)) = o.
Proof.
  unfold offsetKm. intros H.
  destruct (point lib position) as [pt|] eqn:Hpt; [|discriminate]. cbn in H.
  destruct (nearestPointOnLine lib line pt) as [p|] eqn:Hp; [|discriminate].
  cbn in H. injection H as <-. exists pt, p. auto.
Qed.

Lemma etaForStop_offset (busDistKm kmh : num) (s : Stop) (o : num) :
  offsetKm lib line (longitude s, latitude s) = Some o ->
  etaForStop lib line busDistKm kmh s
  = Some (mkEtaStop (stopId s) (name s) (minutesUntil o busDistKm kmh)).
Proof.
  intros H. apply offsetKm_inv in H as (pt & p & Hpt & Hp & <-).
  unfold etaForStop. rewrite Hpt. cbn. rewrite Hp. reflexivity.
Qed.

(** Every stop with an arc offset gets its entry, in order. *)
Lemma etaStops_all (busDistKm kmh : num) (stops : list Stop) :
  Forall (fun s => exists so : Q,
            offsetKm lib line (longitude s, latitude s) = Some (Fin so)) stops ->
  exists etas,
    mapM (etaForStop lib line busDistKm kmh) stops = Some etas
    /\ Forall2 (fun s e => exists so : Q,
                  offsetKm lib line (longitude s, latitude s) = Some (Fin so)
                  /\ e = mkEtaStop (stopId s) (name s)
                                   (minutesUntil (Fin so) busDistKm kmh))
               stops etas.
Proof.
  induction 1 as [|s stops (so & Hs) _ (etas & Hm & Hall)].
  - exists []. split; [reflexivity | constructor].
  - exists (mkEtaStop (stopId s) (name s) (minutesUntil (Fin so) busDistKm kmh)
            :: etas).
    split.
    + apply mapM_Some. constructor.
      * apply etaForStop_offset, Hs.
      * apply mapM_Some, Hm.
    + constructor; [eauto | exact Hall].
Qed.

End Etas.

(** What [computeSnappedAndEtas] returns on a non-empty polyline once turf
    has produced the arc offsets. *)
Lemma computeSnappedAndEtas_offsets (lib : Libs) (cs : list (num * num))
    (stops : list Stop) (busPoint : LatLng) (avg : num) (line : GeoLine) (vo : Q) :
  cs <> [] ->
  lineString lib cs = Some line ->
  offsetKm lib line (ll_lng busPoint, ll_lat busPoint) = Some (Fin vo) ->
  Forall (fun s => exists so : Q,
            offsetKm lib line (longitude s, latitude s) = Some (Fin so)) stops ->
  exists snapped etas,
    computeSnappedAndEtas lib (Some cs) (Some stops) busPoint avg
    = Some (snapped, etas)
    /\ Forall2 (fun s e => exists so : Q,
                  offsetKm lib line (longitude s, latitude s) = Some (Fin so)
                  /\ e = mkEtaStop (stopId s) (name s)
                         (minutesUntil (Fin so) (Fin vo) (jmax (Fin 1) (or0 avg))))
               stops etas.
Proof.
  intros Hcs Hline Hbus Hstops.
  apply offsetKm_inv in Hbus as (pt & p & Hpt & Hp & Hvo).
  destruct (etaStops_all lib line (Fin vo) (jmax (Fin 1) (or0 avg)) stops Hstops)
    as (etas & Hm & Hall).
  destruct cs as [|c cs]; [congruence|].
  unfold computeSnappedAndEtas. rewrite Hline. cbn -[jmax or0 mapM].
  rewrite Hpt. cbn -[jmax or0 mapM]. rewrite Hp. cbn -[jmax or0 mapM].
  rewrite Hvo, Hm. cbn. eauto.
Qed.



(** Minutes do not decrease with the stop's arc offset. *)
Lemma minutesUntil_mono (soi soj vo : Q) (avg : num) :
  (soi <= soj)%Q ->
  jle (minutesUntil (Fin soi) (Fin vo) (jmax (Fin 1) (or0 avg)))
      (minutesUntil (Fin soj) (Fin vo) (jmax (Fin 1) (or0 avg))) = true.
Proof.
  intros Hle. destruct (kmh_floor avg) as [-> | (k & -> & Hk)].
  - rewrite !minutesUntil_PInf. reflexivity.
  - rewrite !minutesUntil_finite by exact Hk. cbn [jle].
    apply Qle_bool_iff. rewrite <- Zle_Qle. apply Qround_half_up_mono.
    apply Qmult_le_compat_r; [|lra].
    unfold Qdiv. apply Qmult_le_compat_r.
    + apply Q.max_le_compat_r. lra.
    + apply Qlt_le_weak, Qinv_lt_0_compat. lra.
Qed.

(** C9: for any two stops Si and Sj matched on the same polyline with
    offset(Si) <= offset(Sj), and any vehicle offset and average speed, the
    etaMinutes computed for Si is at most the etaMinutes computed for Sj. *)
Theorem C9_eta_monotone_along_route (lib : Libs) (cs : list (num * num))
    (stops : list Stop) (busPoint : LatLng) (line : GeoLine)
    (avgSpeedKmh : num) (vehicleOffsetKm : Q) :
  cs <> [] ->
  lineString lib cs = Some line ->
  offsetKm lib line (ll_lng busPoint, ll_lat busPoint)
  = Some (Fin vehicleOffsetKm) ->
  Forall (fun s => exists so : Q,
            offsetKm lib line (longitude s, latitude s) = Some (Fin so)) stops ->
  exists snapped etas,
    computeSnappedAndEtas lib (Some cs) (Some stops) busPoint avgSpeedKmh
    = Some (snapped, etas)
    /\ forall (i j : nat) (Si Sj : Stop) (offset_i offset_j : Q),
        stops !! i = Some Si ->
        stops !! j = Some Sj ->
        offsetKm lib line (longitude Si, latitude Si) = Some (Fin offset_i) ->
        offsetKm lib line (longitude Sj, latitude Sj) = Some (Fin offset_j) ->
        (offset_i <= offset_j)%Q ->
        exists ei ej,
          etas !! i = Some ei /\ etas !! j = Some ej
          /\ jle (etaMinutes ei) (etaMinutes ej) = true.
Proof.
  intros Hcs Hline Hbus Hstops.
  destruct (computeSnappedAndEtas_offsets lib cs stops busPoint avgSpeedKmh
              line vehicleOffsetKm Hcs Hline Hbus Hstops)
    as (snapped & etas & Hc & Hall).
  exists snapped, etas. split; [exact Hc|].
  intros i j Si Sj oi oj Hi Hj Hoi Hoj Hle.
  destruct (Forall2_lookup_l _ _ _ _ _ Hall Hi) as (ei & Hei & (oi' & Hoi' & ->)).
  destruct (Forall2_lookup_l _ _ _ _ _ Hall Hj) as (ej & Hej & (oj' & Hoj' & ->)).
  eexists _, _. split; [exact Hei|]. split; [exact Hej|].
  rewrite Hoi in Hoi'. rewrite Hoj in Hoj'.
  injection Hoi' as <-. injection Hoj' as <-.
  cbn [etaMinutes]. apply minutesUntil_mono, Hle.
Qed.

Lemma C9_eta_monotone_along_route_witness :
  exists snapped etas,
    computeSnappedAndEtas axis_lib (Some [(Fin 0, Fin 0); (Fin 10, Fin 0)])
      (Some [mkStop "A" "Connaught Place" (Fin 0) (Fin 0);
             mkStop "B" "Terminus" (Fin 0) (Fin 10)])
      (mkLatLng (Fin 0) (Fin 4)) (Fin 40)
    = Some (snapped, etas)
    /\ exists ei ej,
        etas !! 0%nat = Some ei /\ etas !! 1%nat = Some ej
        /\ jle (etaMinutes ei) (etaMinutes ej) = true.
Proof.
  destruct (C9_eta_monotone_along_route axis_lib
              [(Fin 0, Fin 0); (Fin 10, Fin 0)]
              [mkStop "A" "Connaught Place" (Fin 0) (Fin 0);
               mkStop "B" "Terminus" (Fin 0) (Fin 10)]
              (mkLatLng (Fin 0) (Fin 4))
              (mkGeoLine [(Fin 0, Fin 0); (Fin 10, Fin 0)]) (Fin 40) 4)
    as (snapped & etas & Hc & Hmono).
  - discriminate.
  - reflexivity.
  - reflexivity.
  - repeat constructor.
    + exists 0%Q. reflexivity.
    + exists 10%Q. reflexivity.
  - exists snapped, etas. split; [exact Hc|].
    apply (Hmono 0%nat 1%nat
             (mkStop "A" "Connaught Place" (Fin 0) (Fin 0))
             (mkStop "B" "Terminus" (Fin 0) (Fin 10)) 0%Q 10%Q);
      [reflexivity | reflexivity | reflexivity | reflexivity | discriminate].
Defined.

(** ** Running the handlers *)

Lemma bind_Ok_inv {A B} (m : M A) (k : A -> M B) (w w2 : World) (b : B) :
  bind m k w = (Ok b, w2) ->
  exists a w1, m w = (Ok a, w1) /\ k a w1 = (Ok b, w2).
Proof.
  unfold bind. destruct (m w) as [[a|] w1]; [eauto | discriminate].
Qed.

Lemma bind_Ok {A B} (m : M A) (k : A -> M B) (w w1 : World) (a : A) :
  m w = (Ok a, w1) -> bind m k w = k a w1.
Proof.
  unfold bind. intros ->. reflexivity.
Qed.

Lemma bind_Throw {A B} (m : M A) (k : A -> M B) (w w1 : World) :
  m w = (Throw, w1) -> bind m k w = (Throw, w1).
Proof.
  unfold bind. intros ->. reflexivity.
Qed.

Lemma call_Ok_inv {A} (env : Env) (o : op) (key : string) (m : M A)
    (w w' : World) (a : A) :
  call env o key m w = (Ok a, w') ->
  rejects env o key = false /\ m w = (Ok a, w').
Proof.
  unfold call. destruct (rejects env o key); [discriminate | auto].
Qed.

Lemma call_pass {A} (env : Env) (o : op) (key : string) (m : M A) :
  rejects env o key = false -> call env o key m = m.
Proof.
  unfold call. intros ->. reflexivity.
Qed.

Lemma call_reject {A} (env : Env) (o : op) (key : string) (m : M A) (w : World) :
  rejects env o key = true -> call env o key m w = (Throw, w).
Proof.
  unfold call. intros ->. reflexivity.
Qed.

Lemma lift_Ok_inv {A} (o : option A) (w w' : World) (a : A) :
  lift o w = (Ok a, w') -> o = Some a /\ w' = w.
Proof.
  destruct o; cbn; intros H; inversion H; auto.
Qed.


Section Runs.

Variable lib : Libs.
Variable env : Env.

(** The Redis entry written on a cache miss. *)
Lemma geometryFromMongo_run (routeId : string) (w : World) :
  geometryFromMongo lib env routeId w =
  if rejects env PolylineFindOne routeId then (Throw, w)
  else if rejects env RouteFindById routeId then (Throw, w)
  else match polylines w !! routeId, routes w !! routeId with
       | Some polyDoc, Some routeDoc =>
           match polyline_decode lib (geometry polyDoc) with
           | None => (Throw, w)
           | Some latLng =>
               let coords := map (fun p : num * num => (snd p, fst p)) latLng in
               let stops := default [] (route_stops routeDoc) in
               if rejects env Hset ("route:" ++ routeId) then (Throw, w)
               else (Ok (mkGeometry (Some coords) (Some stops)),
                     set_hashes
                       (<["route:" ++ routeId :=
                            list_to_map [("polyline", CCoords coords);
                                         ("stops", CStops stops)]
                              ∪ default ∅ (hashes w !! ("route:" ++ routeId))]>
                          (hashes w)) w)
           end
       | _, _ => (Ok (mkGeometry None None), w)
       end.
Proof.
  unfold geometryFromMongo, Polyline_findOne, Route_findById, hset, bind, call.
  destruct (rejects env PolylineFindOne routeId); [reflexivity|].
  destruct (rejects env RouteFindById routeId); [reflexivity|].
  destruct (polylines w !! routeId) as [polyDoc|]; [|reflexivity].
  destruct (routes w !! routeId) as [routeDoc|]; [|reflexivity].
  destruct (polyline_decode lib (geometry polyDoc)) as [latLng|]; [|reflexivity].
  cbn. destruct (rejects env Hset _); reflexivity.
Qed.

Lemma getRouteGeometryAndStops_run (routeId : string) (w : World) :
  getRouteGeometryAndStops lib env routeId w =
  if rejects env Hgetall ("route:" ++ routeId) then (Throw, w)
  else match cachedGeometry (hashes w !! ("route:" ++ routeId)) with
       | Some g => (Ok g, w)
       | None => geometryFromMongo lib env routeId w
       end.
Proof.
  unfold getRouteGeometryAndStops, hgetall, bind, call.
  destruct (rejects env Hgetall _); [reflexivity|].
  destruct (cachedGeometry _); reflexivity.
Qed.

(** Resolving the geometry touches nothing but the route's cache entry. *)
Lemma getRouteGeometryAndStops_frame (routeId : string) (w w' : World)
    (r : result Geometry) :
  getRouteGeometryAndStops lib env routeId w = (r, w') ->
  same_but_hashes w w'
  /\ forall k, k <> "route:" ++ routeId -> hashes w' !! k = hashes w !! k.
Proof.
  rewrite getRouteGeometryAndStops_run, geometryFromMongo_run.
  assert (Hsame : same_but_hashes w w /\
                  forall k, k <> "route:" ++ routeId ->
                            hashes w !! k = hashes w !! k)
    by (unfold same_but_hashes; auto 10).
  cbv zeta. intros H.
  repeat match type of H with
         | (if ?c then _ else _) = _ => destruct c
         | match ?c with _ => _ end = _ => destruct c
         end;
    inversion H; subst; try exact Hsame.
  split; [unfold same_but_hashes; cbn; auto 10|].
  intros k Hk. cbn. apply lookup_insert_ne. congruence.
Qed.

Lemma emitBusUpdate_run (routeId : string) (payload : Payload) (w : World) :
  emitBusUpdate routeId payload w =
  (Ok tt,
   if io w then
     set_emitted
       (emitted w
        ++ [mkEmission (if negb (String.eqb routeId "")
                        then Some ("route:" ++ routeId) else None)
                       "bus:update" payload]) w
   else w).
Proof.
  unfold emitBusUpdate. destruct (io w); reflexivity.
Qed.

(** Lines 100-111 either throw or leave the hot state [recorded]. *)
Lemma record_run (b : LocationUpdate) (id routeId : string) (w w0 w1 : World) :
  hset env ("bus:" ++ id) [("lastLat", StringOf (lat b));
                           ("lastLng", StringOf (lng b));
                           ("lastUpdated", CIso (now env));
                           ("routeId", CText routeId)] w = (Ok tt, w0) ->
  (if isFinite (Number (speed b)) then
     exec lpush env ("bus:" ++ id ++ ":speeds") (StringOf (speed b));
     ltrim env ("bus:" ++ id ++ ":speeds") 0 2
   else ret tt) w0 = (Ok tt, w1) ->
  w1 = recorded env b id routeId w.
Proof.
  intros Hh H.
  apply call_Ok_inv in Hh as [_ Hh]. injection Hh as <-.
  unfold recorded. destruct (isFinite (Number (speed b))).
  - apply bind_Ok_inv in H as ([] & w2 & Hp & H).
    apply call_Ok_inv in Hp as [_ Hp]. injection Hp as <-.
    apply call_Ok_inv in H as [_ H]. injection H as <-.
    cbn. rewrite lookup_insert_eq, insert_insert_eq. reflexivity.
  - injection H as <-. reflexivity.
Qed.

(** A report that does not throw answers 200 with the composite, after
    recording the report, resolving the geometry and emitting once. *)
Lemma trackAndBroadcast_Ok_inv (b : LocationUpdate) (id : string)
    (busDoc : BusDoc) (w w' : World) (r : Response) :
  trackAndBroadcast lib env b id busDoc w = (Ok r, w') ->
  exists g w2 sn etas,
    getRouteGeometryAndStops lib env (bus_routeId busDoc)
      (recorded env b id (bus_routeId busDoc) w) = (Ok g, w2)
    /\ computeSnappedAndEtas lib (coords g) (stops g)
         (mkLatLng (Number (lat b)) (Number (lng b)))
         (computeAverageSpeed
            (take 3 (speedRing (recorded env b id (bus_routeId busDoc) w) id)))
       = Some (sn, etas)
    /\ r = mkResponse 200
             (Composite (Some true)
                (mkPayload id (bus_routeId busDoc)
                   (Some (default (mkLatLng (Number (lat b)) (Number (lng b))) sn))
                   (computeAverageSpeed
                      (take 3 (speedRing
                                 (recorded env b id (bus_routeId busDoc) w) id)))
                   (Some (CIso (now env))) etas Online))
    /\ emitBusUpdate (bus_routeId busDoc)
         (mkPayload id (bus_routeId busDoc)
            (Some (default (mkLatLng (Number (lat b)) (Number (lng b))) sn))
            (computeAverageSpeed
               (take 3 (speedRing (recorded env b id (bus_routeId busDoc) w) id)))
            (Some (CIso (now env))) etas Online) w2
       = (Ok tt, w').
Proof.
  unfold trackAndBroadcast. intros H.
  apply bind_Ok_inv in H as ([] & w0 & Hh & H).
  apply bind_Ok_inv in H as ([] & w1 & Hp & H).
  pose proof (record_run b id (bus_routeId busDoc) w w0 w1 Hh Hp) as ->.
  apply bind_Ok_inv in H as (speeds & w1' & Hl & H).
  apply call_Ok_inv in Hl as [_ Hl]. injection Hl as <- <-.
  apply bind_Ok_inv in H as (g & w2 & Hg & H).
  apply bind_Ok_inv in H as ([sn etas] & w2' & Hc & H).
  apply lift_Ok_inv in Hc as [Hc ->].
  apply bind_Ok_inv in H as ([] & w3 & He & H).
  injection H as <- <-.
  exists g, w2, sn, etas. auto.
Qed.

Lemma trackAndBroadcast_status (b : LocationUpdate) (id : string)
    (busDoc : BusDoc) (w w' : World) (r : Response) :
  trackAndBroadcast lib env b id busDoc w = (Ok r, w') -> status r = 200%nat.
Proof.
  intros H. apply trackAndBroadcast_Ok_inv in H as (g & w2 & sn & etas & _ & _ & -> & _).
  reflexivity.
Qed.

(** [try { m } catch { 500 }] always answers. *)
Lemma try_catch_500 (m : M Response) (body500 : ResBody) (w : World) :
  (exists r w', m w = (Ok r, w')
                /\ try_catch m (ret (mkResponse 500 body500)) w = (Ok r, w'))
  \/ (exists w', m w = (Throw, w')
                 /\ try_catch m (ret (mkResponse 500 body500)) w
                    = (Ok (mkResponse 500 body500), w')).
Proof.
  unfold try_catch. destruct (m w) as [[r|] w']; [left | right]; eauto.
Qed.

End Runs.

(** ** Validation and unknown vehicles *)


(** ** Live queries *)

Lemma Z_diff_le (a b c : Z) :
  Qle_bool (Qred (inject_Z a - inject_Z b)) (inject_Z c) = true <-> a - b <= c.
Proof.
  rewrite Qle_bool_iff, Qred_correct.
  unfold Qle, Qminus, Qplus, Qopp, inject_Z. cbn. lia.
Qed.

Section LiveQuery.

Variable lib : Libs.
Variable env : Env.

(** A snapshot that does not throw is the composite built from the stored
    hash and ring. *)
Lemma liveSnapshot_Ok_inv (id : string) (busDoc : BusDoc) (w w' : World)
    (r : Response) :
  liveSnapshot lib env id busDoc w = (Ok r, w') ->
  let busState := hashes w !! ("bus:" ++ id) in
  exists snappedLocation etas,
    r = mkResponse 200
          (Composite None
             (mkPayload id (bus_routeId busDoc) snappedLocation
                (computeAverageSpeed (take 3 (speedRing w id)))
                (field busState "lastUpdated") etas
                (match field busState "lastUpdated" with
                 | Some lu =>
                     if jle (jsub (Fin (inject_Z (now env))) (getTime lu))
                            (Fin (inject_Z (90 * 1000)))
                     then Online else Offline
                 | None => Offline
                 end))).
Proof.
  intros H. cbv zeta. unfold liveSnapshot in H.
  apply bind_Ok_inv in H as (bs & w0 & Hh & H).
  apply call_Ok_inv in Hh as [_ Hh]. injection Hh as <- <-.
  apply bind_Ok_inv in H as (speeds & w0 & Hl & H).
  apply call_Ok_inv in Hl as [_ Hl]. injection Hl as <- <-.
  apply bind_Ok_inv in H as (g & w2 & Hg & H).
  apply bind_Ok_inv in H as (sr & w3 & Hc & H).
  injection H as <- <-. eauto.
Qed.

Lemma getLiveBus_200_inv (id : string) (w w' : World) (resp : Response) :
  getLiveBus lib env id w = (Ok resp, w') ->
  status resp = 200%nat ->
  exists busDoc, buses w !! id = Some busDoc
                 /\ liveSnapshot lib env id busDoc w = (Ok resp, w').
Proof.
  unfold getLiveBus, try_catch, bind, Bus_findOne, call.
  destruct (rejects env BusFindOne id).
  { intros H. injection H as <- <-. discriminate. }
  destruct (buses w !! id) as [busDoc|].
  - destruct (liveSnapshot lib env id busDoc w) as [[r|] w1] eqn:E.
    + intros H _. injection H as <- <-. eauto.
    + intros H. injection H as <- <-. discriminate.
  - intros H. injection H as <- <-. discriminate.
Qed.

End LiveQuery.

(** C3: when [getLiveBus] answers 200, the status of the returned composite
    is "online" if and only if now - t <= 90 seconds (in milliseconds), for
    the timestamp t stored in the lastUpdated field of the bus hash, and it
    is "offline" when that field is absent. *)
Theorem C3_live_status_threshold (lib : Libs) (env : Env) (id : string)
    (w w' : World) (resp : Response) :
  getLiveBus lib env id w = (Ok resp, w') ->
  status resp = 200%nat ->
  exists p,
    body resp = Composite None p
    /\ match hashes w !! ("bus:" ++ id) ≫= (fun h => h !! "lastUpdated") with
       | Some (CIso t) =>
           lastUpdated p = Some (CIso t)
           /\ (p_status p = Online <-> now env - t <= 90 * 1000)
       | Some _ => True
       | None => lastUpdated p = None /\ p_status p = Offline
       end.
Proof.
  intros H H200.
  apply getLiveBus_200_inv in H as (busDoc & _ & H); [|exact H200].
  apply liveSnapshot_Ok_inv in H as (sn & etas & ->).
  eexists. split; [reflexivity|]. cbn [lastUpdated p_status].
  unfold field.
  destruct (hashes w !! ("bus:" ++ id)) as [h|]; cbn; [|auto].
  destruct (h !! "lastUpdated") as [c|]; cbn; [|auto].
  destruct c as [n|t|s|c|st]; try exact I.
  cbn. split; [reflexivity|].
  destruct (Qle_bool (Qred (inject_Z (now env) - inject_Z t)) (inject_Z (90 * 1000)))
    eqn:E.
  - apply Z_diff_le in E. split; [intros _; exact E | reflexivity].
  - split; [discriminate|]. intros L. apply Z_diff_le in L. congruence.
Qed.

Lemma C3_live_status_threshold_witness :
  exists p,
    body (answer (getLiveBus axis_lib (calm 90000) "V1" afterS1))
    = Composite None p
    /\ lastUpdated p = Some (CIso 0) /\ p_status p = Online.
Proof.
  destruct (C3_live_status_threshold axis_lib (calm 90000) "V1" afterS1
              (snd (getLiveBus axis_lib (calm 90000) "V1" afterS1))
              (answer (getLiveBus axis_lib (calm 90000) "V1" afterS1)))
    as (p & Hb & Hm).
  - vm_compute. reflexivity.
  - vm_compute. reflexivity.
  - exists p. split; [exact Hb|].
    change (hashes afterS1 !! ("bus:" ++ "V1") ≫= (fun h => h !! "lastUpdated"))
      with (Some (CIso 0)) in Hm.
    destruct Hm as [Hl Hs]. split; [exact Hl|]. apply Hs. vm_compute. discriminate.
Defined.

(** C8: a live query for a known vehicle that has never reported (no bus
    hash, no speed ring), when the stores answer and the route geometry
    resolves, is answered 200 with the composite whose snappedLocation is
    null, etaStops empty, avgSpeed 0, status "offline" and lastUpdated
    null. *)
Theorem C8_live_query_before_first_report (lib : Libs) (env : Env)
    (id : string) (busDoc : BusDoc) (w w1 : World) (g : Geometry) :
  buses w !! id = Some busDoc ->
  hashes w !! ("bus:" ++ id) = None ->
  lists w !! ("bus:" ++ id ++ ":speeds") = None ->
  rejects env BusFindOne id = false ->
  rejects env Hgetall ("bus:" ++ id) = false ->
  rejects env Lrange ("bus:" ++ id ++ ":speeds") = false ->
  getRouteGeometryAndStops lib env (bus_routeId busDoc) w = (Ok g, w1) ->
  getLiveBus lib env id w
  = (Ok (mkResponse 200
           (Composite None
              (mkPayload id (bus_routeId busDoc) None (Fin 0) None [] Offline))),
     w1).
Proof.
  intros Hbus Hhash Hring Hr1 Hr2 Hr3 Hg.
  unfold getLiveBus, try_catch, Bus_findOne, liveSnapshot, hgetall, lrange.
  rewrite !call_pass by assumption.
  unfold bind at 1. rewrite Hbus.
  unfold bind at 1. rewrite Hhash.
  unfold bind at 1. rewrite Hring.
  unfold bind at 1. rewrite Hg.
  reflexivity.
Qed.

Lemma C8_live_query_before_first_report_witness :
  getLiveBus axis_lib (calm 0) "V1" depot
  = (Ok (mkResponse 200
           (Composite None (mkPayload "V1" "R1" None (Fin 0) None [] Offline))),
     snd (getRouteGeometryAndStops axis_lib (calm 0) "R1" depot)).
Proof.
  apply (C8_live_query_before_first_report axis_lib (calm 0) "V1"
           (mkBusDoc "R1") depot
           (snd (getRouteGeometryAndStops axis_lib (calm 0) "R1" depot))
           (mkGeometry (Some [(Fin 0, Fin 0); (Fin 10, Fin 0)]) (Some R1_stops)));
    vm_compute; reflexivity.
Defined.

(** ** The geometry cache *)

(** A damaged entry is not served. *)
Lemma cachedGeometry_damaged (h : gmap string cell) :
  damaged (h !! "polyline") \/ damaged (h !! "stops") ->
  cachedGeometry (Some h) = None.
Proof.
  unfold cachedGeometry, damaged.
  destruct (h !! "polyline") as [[| |s1| |]|], (h !! "stops") as [[| |s2| |]|];
    intros [[]|[]]; try reflexivity;
    try (destruct s1 as [|? ?]; reflexivity);
    try (destruct s2 as [|? ?]; cbn; rewrite ?andb_false_r; reflexivity).
  all: destruct s1 as [|? ?], s2 as [|? ?]; reflexivity.
Qed.

Lemma cachedGeometry_miss (cached : option (gmap string cell)) :
  cache_miss cached -> cachedGeometry cached = None.
Proof.
  destruct cached as [h|]; [apply cachedGeometry_damaged | reflexivity].
Qed.

(** What a rewritten entry serves. *)
Lemma cachedGeometry_rewritten (cs : list (num * num)) (st : list Stop)
    (old : gmap string cell) :
  cachedGeometry
    (Some (list_to_map [("polyline", CCoords cs); ("stops", CStops st)] ∪ old))
  = Some (mkGeometry (Some cs) (Some st)).
Proof.
  unfold cachedGeometry.
  assert (Hp : (list_to_map [("polyline", CCoords cs); ("stops", CStops st)]
                ∪ old : gmap string cell) !! "polyline" = Some (CCoords cs)).
  { apply lookup_union_Some_l. reflexivity. }
  assert (Hs : (list_to_map [("polyline", CCoords cs); ("stops", CStops st)]
                ∪ old : gmap string cell) !! "stops" = Some (CStops st)).
  { apply lookup_union_Some_l. reflexivity. }
  rewrite Hp, Hs. reflexivity.
Qed.




(** C10: when the cached route entry exists but its polyline or stops field
    is missing or is not JSON text, and the durable Polyline and Route load
    and decode and the cache write goes through, [getRouteGeometryAndStops]
    does not fail and does not serve the damaged entry: it runs the
    durable-store path, returns the geometry decoded anew, and leaves the
    entry rewritten so that the cache serves that geometry afterwards. *)
Theorem C10_damaged_entry_is_rebuilt (lib : Libs) (env : Env) (routeId : string)
    (w : World) (h : gmap string cell) (polyDoc : PolylineDoc)
    (routeDoc : RouteDoc) (latLng : list (num * num)) :
  rejects env Hgetall ("route:" ++ routeId) = false ->
  hashes w !! ("route:" ++ routeId) = Some h ->
  damaged (h !! "polyline") \/ damaged (h !! "stops") ->
  rejects env PolylineFindOne routeId = false ->
  rejects env RouteFindById routeId = false ->
  polylines w !! routeId = Some polyDoc ->
  routes w !! routeId = Some routeDoc ->
  polyline_decode lib (geometry polyDoc) = Some latLng ->
  rejects env Hset ("route:" ++ routeId) = false ->
  let coords := map (fun p : num * num => (snd p, fst p)) latLng in
  let stops := default [] (route_stops routeDoc) in
  getRouteGeometryAndStops lib env routeId w
  = geometryFromMongo lib env routeId w
  /\ exists w' h',
      getRouteGeometryAndStops lib env routeId w
      = (Ok (mkGeometry (Some coords) (Some stops)), w')
      /\ hashes w' !! ("route:" ++ routeId) = Some h'
      /\ h' !! "polyline" = Some (CCoords coords)
      /\ h' !! "stops" = Some (CStops stops)
      /\ cachedGeometry (Some h') = Some (mkGeometry (Some coords) (Some stops)).
Proof.
  intros Hget Hh Hdam Hp Hr Hpoly Hroute Hdec Hset coords stops.
  assert (Hrun : getRouteGeometryAndStops lib env routeId w
                 = geometryFromMongo lib env routeId w).
  { rewrite getRouteGeometryAndStops_run, Hget, Hh.
    rewrite cachedGeometry_damaged by exact Hdam. reflexivity. }
  split; [exact Hrun|].
  rewrite Hrun, geometryFromMongo_run, Hp, Hr, Hpoly, Hroute, Hdec, Hset, Hh.
  cbv zeta. eexists _, _. split; [reflexivity|].
  cbn [hashes set_hashes]. rewrite lookup_insert_eq.
  split; [reflexivity|].
  split; [apply lookup_union_Some_l; reflexivity|].
  split; [apply lookup_union_Some_l; reflexivity|].
  apply cachedGeometry_rewritten.
Qed.

Lemma C10_damaged_entry_is_rebuilt_witness :
  exists w' h',
    getRouteGeometryAndStops axis_lib (calm 0) "R1" depot_damaged
    = (Ok (mkGeometry (Some [(Fin 0, Fin 0); (Fin 10, Fin 0)]) (Some R1_stops)),
       w')
    /\ hashes w' !! "route:R1" = Some h'
    /\ h' !! "polyline" = Some (CCoords [(Fin 0, Fin 0); (Fin 10, Fin 0)])
    /\ h' !! "stops" = Some (CStops R1_stops)
    /\ cachedGeometry (Some h')
       = Some (mkGeometry (Some [(Fin 0, Fin 0); (Fin 10, Fin 0)])
                          (Some R1_stops)).
Proof.
  apply (C10_damaged_entry_is_rebuilt axis_lib (calm 0) "R1" depot_damaged
           {[ "polyline" := CText "[[0,0],[10" ]}
           (mkPolylineDoc "encoded") (mkRouteDoc (Some R1_stops))
           [(Fin 0, Fin 0); (Fin 0, Fin 10)]);
    try (vm_compute; reflexivity).
  right. vm_compute. exact I.
Defined.

(** ** Broadcast *)

Lemma recorded_frame (env : Env) (b : LocationUpdate) (id routeId : string)
    (w : World) :
  buses (recorded env b id routeId w) = buses w
  /\ io (recorded env b id routeId w) = io w
  /\ emitted (recorded env b id routeId w) = emitted w.
Proof.
  unfold recorded. destruct (isFinite (Number (speed b))); auto.
Qed.

Section Ingest.

Variable lib : Libs.
Variable env : Env.

(** An ingest answered 2xx went through the whole report path. *)
Lemma updateBusLocation_2xx_inv (req_body : option LocationUpdate)
    (w w' : World) (resp : Response) :
  updateBusLocation lib env req_body w = (Ok resp, w') ->
  (200 <= status resp < 300)%nat ->
  exists b id busDoc,
    req_body = Some b /\ busId b = Some id
    /\ isFinite (Number (lat b)) = true /\ isFinite (Number (lng b)) = true
    /\ buses w !! id = Some busDoc
    /\ trackAndBroadcast lib env b id busDoc w = (Ok resp, w').
Proof.
  unfold updateBusLocation, try_catch, validateAndTrack.
  destruct req_body as [b|].
  2: { intros H. cbn in H. injection H as <- <-. cbn. lia. }
  change (default (mkLocationUpdate None None None None) (Some b)) with b.
  destruct (busId b) as [id|] eqn:Hid.
  2: { intros H. cbn in H. injection H as <- <-. cbn. lia. }
  change (default "" (Some id)) with id. cbn [falsy].
  destruct (String.eqb id ""); cbn [orb].
  { intros H. injection H as <- <-. cbn. lia. }
  destruct (isFinite (Number (lat b))) eqn:Hlat; cbn [negb orb].
  2: { intros H. injection H as <- <-. cbn. lia. }
  destruct (isFinite (Number (lng b))) eqn:Hlng; cbn [negb orb].
  2: { intros H. injection H as <- <-. cbn. lia. }
  unfold Bus_findOne, call, bind.
  destruct (rejects env BusFindOne id).
  { intros H. injection H as <- <-. cbn. lia. }
  destruct (buses w !! id) as [busDoc|] eqn:Hbus.
  2: { intros H. injection H as <- <-. cbn. lia. }
  destruct (trackAndBroadcast lib env b id busDoc w) as [[r|] w1] eqn:E.
  - intros H _. injection H as <- <-. exists b, id, busDoc. auto 10.
  - intros H. injection H as <- <-. cbn. lia.
Qed.

End Ingest.




(** ** The speed ring *)




Lemma bus_key_not_route_key (id routeId : string) :
  "bus:" ++ id <> "route:" ++ routeId.
Proof.
  cbn. discriminate.
Qed.


Section Ring.

Variable lib : Libs.

(** An ingest call always answers; a 400 or 404 changes nothing. *)
Lemma updateBusLocation_cases (env : Env) (req_body : option LocationUpdate)
    (w : World) :
  exists r w',
    updateBusLocation lib env req_body w = (Ok r, w')
    /\ ((w' = w /\ (status r = 400 \/ status r = 404)%nat)
        \/ status r = 500%nat \/ status r = 200%nat).
Proof.
  unfold updateBusLocation.
  destruct (try_catch_500 (validateAndTrack lib env req_body)
              (Message (Some false) "Server error") w)
    as [(r & w' & Hm & ->) | (w' & Hm & ->)];
    [exists r, w' | eexists _, w'; split; [reflexivity | auto]].
  split; [reflexivity|].
  revert Hm. unfold validateAndTrack.
  destruct (falsy _ || _ || _).
  { intros H. injection H as <- <-. auto. }
  unfold Bus_findOne, call, bind.
  destruct (rejects env BusFindOne _); [discriminate|].
  destruct (buses w !! _) as [busDoc|].
  - intros H. apply trackAndBroadcast_status in H. auto.
  - intros H. injection H as <- <-. auto.
Qed.




End Ring.




(** ** The scenarios of the specification, on the small deployment *)

(** S2: speeds 30, 60, 90 and then 0 leave the ring 0, 90, 60 and the fourth
    answer carries avgSpeed 50. *)
Example S2_ring_windowing :
  let run := ingestAll axis_lib
               [(calm 0, report (Fin 30)); (calm 1, report (Fin 60));
                (calm 2, report (Fin 90)); (calm 3, report (Fin 0))] depot in
  speedRing (snd run) "V1" = [CNum (Fin 0); CNum (Fin 90); CNum (Fin 60)]
  /\ (exists p, body <$> last (fst run) = Some (Composite (Some true) p)
                /\ avgSpeed p = Fin 50).
Proof.
  split; [vm_compute; reflexivity|].
  eexists. split; vm_compute; reflexivity.
Qed.

(** S3: 91 seconds after the only report the live query says offline and
    still carries the time and place of that report. *)
Example S3_offline_transition :
  exists p,
    body (answer (getLiveBus axis_lib (calm 91000) "V1" afterS1))
    = Composite None p
    /\ p_status p = Offline
    /\ lastUpdated p = Some (CIso 0)
    /\ snappedLocation p = Some (mkLatLng (Fin 0) (Fin 4)).
Proof.
  eexists. split; [vm_compute; reflexivity|]. repeat split.
Qed.

(** S5: a report for an unknown vehicle is answered 404 and leaves the
    deployment as it was. *)
Example S5_unknown_vehicle :
  updateBusLocation axis_lib (calm 0)
    (Some (mkLocationUpdate (Some "UNKNOWN") (Some (Fin 0)) (Some (Fin 0))
                            (Some (Fin 0)))) depot
  = (Ok (mkResponse 404 (Message (Some false) "Bus not found")), depot).
Proof.
  vm_compute. reflexivity.
Qed.

(** * Further properties of the engine *)

(** ** Ranges of the computed numbers *)










(** ** How the estimate moves *)

Lemma Qdiv_anti (x k k' : Q) :
  (0 <= x)%Q -> (0 < k)%Q -> (k <= k')%Q -> (x / k' <= x / k)%Q.
Proof.
  intros Hx Hk Hkk.
  apply Qle_shift_div_r; [lra|].
  assert (Hd : (0 <= x / k)%Q) by (apply Qle_shift_div_l; lra).
  assert (E : (x / k * k == x)%Q) by (field; lra).
  pose proof (Qmult_le_0_compat (x / k) (k' - k) Hd) as Hp.
  assert (Hp' : (0 <= x / k * (k' - k))%Q) by (apply Hp; lra).
  set (d := (x / k)%Q) in *.
  assert (E2 : (d * (k' - k) == d * k' - d * k)%Q) by ring.
  rewrite E2, E in Hp'. lra.
Qed.

Lemma minutesUntil_nonneg (so vo : Q) (avg : num) :
  exists m : Z,
    minutesUntil (Fin so) (Fin vo) (jmax (Fin 1) (or0 avg)) = Fin (inject_Z m)
    /\ 0 <= m.
Proof.
  destruct (kmh_floor avg) as [-> | (k & -> & Hk)].
  - exists 0. rewrite minutesUntil_PInf. split; [reflexivity | lia].
  - eexists. rewrite minutesUntil_finite by exact Hk. split; [reflexivity|].
    change 0 with (Qround_half_up 0). apply Qround_half_up_mono.
    apply Qmult_le_0_compat; [|lra].
    apply Qle_shift_div_l; [lra|]. rewrite Qmult_0_l. apply Q.le_max_r.
Qed.

Lemma minutesUntil_anti_vehicle (so vo vo' : Q) (avg : num) :
  (vo <= vo')%Q ->
  jle (minutesUntil (Fin so) (Fin vo') (jmax (Fin 1) (or0 avg)))
      (minutesUntil (Fin so) (Fin vo) (jmax (Fin 1) (or0 avg))) = true.
Proof.
  intros Hle. destruct (kmh_floor avg) as [-> | (k & -> & Hk)].
  - rewrite !minutesUntil_PInf. reflexivity.
  - rewrite !minutesUntil_finite by exact Hk. cbn [jle].
    apply Qle_bool_iff. rewrite <- Zle_Qle. apply Qround_half_up_mono.
    apply Qmult_le_compat_r; [|lra].
    unfold Qdiv. apply Qmult_le_compat_r.
    + apply Q.max_le_compat_r. lra.
    + apply Qlt_le_weak, Qinv_lt_0_compat. lra.
Qed.

Lemma minutesUntil_anti_speed (so vo a a' : Q) :
  (a <= a')%Q ->
  jle (minutesUntil (Fin so) (Fin vo) (jmax (Fin 1) (or0 (Fin a'))))
      (minutesUntil (Fin so) (Fin vo) (jmax (Fin 1) (or0 (Fin a)))) = true.
Proof.
  intros Hle.
  destruct (kmh_finite a) as (k & -> & Ek).
  destruct (kmh_finite a') as (k' & -> & Ek').
  assert (H1 : (1 <= k)%Q) by (rewrite Ek; apply Q.le_max_r).
  assert (H1' : (1 <= k')%Q) by (rewrite Ek'; apply Q.le_max_r).
  assert (Hkk : (k <= k')%Q) by (rewrite Ek, Ek'; apply Q.max_le_compat_r, Hle).
  rewrite !minutesUntil_finite by assumption. cbn [jle].
  apply Qle_bool_iff. rewrite <- Zle_Qle. apply Qround_half_up_mono.
  apply Qmult_le_compat_r; [|lra].
  apply Qdiv_anti; [apply Q.le_max_r | lra | exact Hkk].
Qed.

(** X3: on a polyline for which turf yields the arc offsets, every
    etaMinutes returned is a non-negative whole number, whatever the average
    speed passed in (zero, negative, NaN and infinite included). *)
Theorem X3_eta_nonneg_integer (lib : Libs) (cs : list (num * num))
    (stops : list Stop) (busPoint : LatLng) (line : GeoLine)
    (avgSpeedKmh : num) (vehicleOffsetKm : Q) :
  cs <> [] ->
  lineString lib cs = Some line ->
  offsetKm lib line (ll_lng busPoint, ll_lat busPoint)
  = Some (Fin vehicleOffsetKm) ->
  Forall (fun s => exists so : Q,
            offsetKm lib line (longitude s, latitude s) = Some (Fin so)) stops ->
  exists snapped etas,
    computeSnappedAndEtas lib (Some cs) (Some stops) busPoint avgSpeedKmh
    = Some (snapped, etas)
    /\ Forall (fun e => exists m : Z, etaMinutes e = Fin (inject_Z m) /\ 0 <= m)
              etas.
Proof.
  intros Hcs Hline Hbus Hstops.
  destruct (computeSnappedAndEtas_offsets lib cs stops busPoint avgSpeedKmh
              line vehicleOffsetKm Hcs Hline Hbus Hstops)
    as (snapped & etas & Hc & Hall).
  exists snapped, etas. split; [exact Hc|].
  clear Hc Hstops.
  induction Hall as [|s e stops' etas' (so & _ & ->) _ IH]; constructor.
  - cbn [etaMinutes]. apply minutesUntil_nonneg.
  - exact IH.
Qed.

Lemma X3_eta_nonneg_integer_witness :
  exists snapped etas,
    computeSnappedAndEtas axis_lib (Some [(Fin 0, Fin 0); (Fin 10, Fin 0)])
      (Some R1_stops) (mkLatLng (Fin 0) (Fin 4)) NaN
    = Some (snapped, etas)
    /\ Forall (fun e => exists m : Z, etaMinutes e = Fin (inject_Z m) /\ 0 <= m)
              etas.
Proof.
  apply (X3_eta_nonneg_integer axis_lib [(Fin 0, Fin 0); (Fin 10, Fin 0)]
           R1_stops (mkLatLng (Fin 0) (Fin 4))
           (mkGeoLine [(Fin 0, Fin 0); (Fin 10, Fin 0)]) NaN 4).
  - discriminate.
  - reflexivity.
  - reflexivity.
  - repeat constructor; [exists 0%Q | exists 10%Q]; reflexivity.
Defined.

(** The entries of two runs over the same stops, compared one by one. *)
Lemma etas_compare (lib : Libs) (line : GeoLine) (stops : list Stop)
    (vo vo' : Q) (kmh kmh' : num) (etas etas' : list EtaStop) :
  (forall so : Q, jle (minutesUntil (Fin so) (Fin vo') kmh')
                      (minutesUntil (Fin so) (Fin vo) kmh) = true) ->
  Forall2 (fun s e => exists so : Q,
             offsetKm lib line (longitude s, latitude s) = Some (Fin so)
             /\ e = mkEtaStop (stopId s) (name s)
                              (minutesUntil (Fin so) (Fin vo) kmh))
          stops etas ->
  Forall2 (fun s e => exists so : Q,
             offsetKm lib line (longitude s, latitude s) = Some (Fin so)
             /\ e = mkEtaStop (stopId s) (name s)
                              (minutesUntil (Fin so) (Fin vo') kmh'))
          stops etas' ->
  Forall2 (fun e e' => eta_stopId e' = eta_stopId e
                       /\ jle (etaMinutes e') (etaMinutes e) = true)
          etas etas'.
Proof.
  intros Hcmp H. revert etas'.
  induction H as [|s e stops etas (so & Hso & ->) _ IH]; intros etas' H';
    inversion H' as [|? e' ? etas'' (so' & Hso' & ->) Hrest]; subst;
    constructor.
  - rewrite Hso in Hso'. injection Hso' as <-. cbn. split; [reflexivity|].
    apply Hcmp.
  - apply IH, Hrest.
Qed.

(** X4: as the vehicle advances along the polyline (larger arc offset), with
    the same stops and average speed, no stop's etaMinutes goes up. *)
Theorem X4_eta_falls_as_vehicle_advances (lib : Libs) (cs : list (num * num))
    (stops : list Stop) (before after : LatLng) (line : GeoLine)
    (avgSpeedKmh : num) (offset_before offset_after : Q) :
  cs <> [] ->
  lineString lib cs = Some line ->
  offsetKm lib line (ll_lng before, ll_lat before) = Some (Fin offset_before) ->
  offsetKm lib line (ll_lng after, ll_lat after) = Some (Fin offset_after) ->
  (offset_before <= offset_after)%Q ->
  Forall (fun s => exists so : Q,
            offsetKm lib line (longitude s, latitude s) = Some (Fin so)) stops ->
  exists sn etas sn' etas',
    computeSnappedAndEtas lib (Some cs) (Some stops) before avgSpeedKmh
    = Some (sn, etas)
    /\ computeSnappedAndEtas lib (Some cs) (Some stops) after avgSpeedKmh
       = Some (sn', etas')
    /\ Forall2 (fun e e' => eta_stopId e' = eta_stopId e
                            /\ jle (etaMinutes e') (etaMinutes e) = true)
               etas etas'.
Proof.
  intros Hcs Hline Hb Ha Hle Hstops.
  destruct (computeSnappedAndEtas_offsets lib cs stops before avgSpeedKmh
              line offset_before Hcs Hline Hb Hstops) as (sn & etas & Hc & Hall).
  destruct (computeSnappedAndEtas_offsets lib cs stops after avgSpeedKmh
              line offset_after Hcs Hline Ha Hstops) as (sn' & etas' & Hc' & Hall').
  exists sn, etas, sn', etas'. split; [exact Hc|]. split; [exact Hc'|].
  eapply etas_compare; [|exact Hall|exact Hall'].
  intros so. apply minutesUntil_anti_vehicle, Hle.
Qed.

Lemma X4_eta_falls_as_vehicle_advances_witness :
  exists sn etas sn' etas',
    computeSnappedAndEtas axis_lib (Some [(Fin 0, Fin 0); (Fin 10, Fin 0)])
      (Some R1_stops) (mkLatLng (Fin 0) (Fin 4)) (Fin 40) = Some (sn, etas)
    /\ computeSnappedAndEtas axis_lib (Some [(Fin 0, Fin 0); (Fin 10, Fin 0)])
         (Some R1_stops) (mkLatLng (Fin 0) (Fin 6)) (Fin 40) = Some (sn', etas')
    /\ Forall2 (fun e e' => eta_stopId e' = eta_stopId e
                            /\ jle (etaMinutes e') (etaMinutes e) = true)
               etas etas'.
Proof.
  apply (X4_eta_falls_as_vehicle_advances axis_lib
           [(Fin 0, Fin 0); (Fin 10, Fin 0)] R1_stops
           (mkLatLng (Fin 0) (Fin 4)) (mkLatLng (Fin 0) (Fin 6))
           (mkGeoLine [(Fin 0, Fin 0); (Fin 10, Fin 0)]) (Fin 40) 4 6).
  - discriminate.
  - reflexivity.
  - reflexivity.
  - reflexivity.
  - discriminate.
  - repeat constructor; [exists 0%Q | exists 10%Q]; reflexivity.
Defined.

(** X5: with the same vehicle position and stops, a higher (finite) average
    speed never gives a stop a larger etaMinutes. *)
Theorem X5_eta_falls_as_speed_rises (lib : Libs) (cs : list (num * num))
    (stops : list Stop) (busPoint : LatLng) (line : GeoLine)
    (slower faster vehicleOffsetKm : Q) :
  cs <> [] ->
  lineString lib cs = Some line ->
  offsetKm lib line (ll_lng busPoint, ll_lat busPoint)
  = Some (Fin vehicleOffsetKm) ->
  (slower <= faster)%Q ->
  Forall (fun s => exists so : Q,
            offsetKm lib line (longitude s, latitude s) = Some (Fin so)) stops ->
  exists sn etas sn' etas',
    computeSnappedAndEtas lib (Some cs) (Some stops) busPoint (Fin slower)
    = Some (sn, etas)
    /\ computeSnappedAndEtas lib (Some cs) (Some stops) busPoint (Fin faster)
       = Some (sn', etas')
    /\ Forall2 (fun e e' => eta_stopId e' = eta_stopId e
                            /\ jle (etaMinutes e') (etaMinutes e) = true)
               etas etas'.
Proof.
  intros Hcs Hline Hb Hle Hstops.
  destruct (computeSnappedAndEtas_offsets lib cs stops busPoint (Fin slower)
              line vehicleOffsetKm Hcs Hline Hb Hstops) as (sn & etas & Hc & Hall).
  destruct (computeSnappedAndEtas_offsets lib cs stops busPoint (Fin faster)
              line vehicleOffsetKm Hcs Hline Hb Hstops)
    as (sn' & etas' & Hc' & Hall').
  exists sn, etas, sn', etas'. split; [exact Hc|]. split; [exact Hc'|].
  eapply etas_compare; [|exact Hall|exact Hall'].
  intros so. apply minutesUntil_anti_speed, Hle.
Qed.

Lemma X5_eta_falls_as_speed_rises_witness :
  exists sn etas sn' etas',
    computeSnappedAndEtas axis_lib (Some [(Fin 0, Fin 0); (Fin 10, Fin 0)])
      (Some R1_stops) (mkLatLng (Fin 0) (Fin 4)) (Fin 20) = Some (sn, etas)
    /\ computeSnappedAndEtas axis_lib (Some [(Fin 0, Fin 0); (Fin 10, Fin 0)])
         (Some R1_stops) (mkLatLng (Fin 0) (Fin 4)) (Fin 40) = Some (sn', etas')
    /\ Forall2 (fun e e' => eta_stopId e' = eta_stopId e
                            /\ jle (etaMinutes e') (etaMinutes e) = true)
               etas etas'.
Proof.
  apply (X5_eta_falls_as_speed_rises axis_lib
           [(Fin 0, Fin 0); (Fin 10, Fin 0)] R1_stops
           (mkLatLng (Fin 0) (Fin 4))
           (mkGeoLine [(Fin 0, Fin 0); (Fin 10, Fin 0)]) 20 40 4).
  - discriminate.
  - reflexivity.
  - reflexivity.
  - discriminate.
  - repeat constructor; [exists 0%Q | exists 10%Q]; reflexivity.
Defined.

Lemma kmh_below_floor (avg : num) :
  avg = NaN \/ jlt avg (Fin 1) = true -> jmax (Fin 1) (or0 avg) = Fin 1.
Proof.
  intros [-> | H]; [reflexivity|].
  destruct avg as [| | |a]; try discriminate; try reflexivity.
  cbn [or0]. destruct (Qzero a); [reflexivity|].
  cbn [jmax]. cbn [jlt] in H. apply Qltb_true in H.
  destruct (Qle_bool 1 a) eqn:L; [|reflexivity].
  apply Qle_bool_iff in L. lra.
Qed.

(** X6: an average speed below 1 km/h (zero and negative values included)
    or NaN is replaced by the floor of 1 km/h: the whole result is the one
    computed for 1 km/h, on any polyline, stops and position. *)
Theorem X6_speed_floor (lib : Libs) (coords : option (list (num * num)))
    (stops : option (list Stop)) (busPoint : LatLng) (avgSpeedKmh : num) :
  avgSpeedKmh = NaN \/ jlt avgSpeedKmh (Fin 1) = true ->
  computeSnappedAndEtas lib coords stops busPoint avgSpeedKmh
  = computeSnappedAndEtas lib coords stops busPoint (Fin 1).
Proof.
  intros H. unfold computeSnappedAndEtas.
  rewrite (kmh_below_floor avgSpeedKmh H). reflexivity.
Qed.

Lemma X6_speed_floor_witness :
  computeSnappedAndEtas axis_lib (Some [(Fin 0, Fin 0); (Fin 10, Fin 0)])
    (Some R1_stops) (mkLatLng (Fin 0) (Fin 4)) (Fin 0)
  = computeSnappedAndEtas axis_lib (Some [(Fin 0, Fin 0); (Fin 10, Fin 0)])
      (Some R1_stops) (mkLatLng (Fin 0) (Fin 4)) (Fin 1).
Proof.
  apply (X6_speed_floor axis_lib (Some [(Fin 0, Fin 0); (Fin 10, Fin 0)])
           (Some R1_stops) (mkLatLng (Fin 0) (Fin 4)) (Fin 0)).
  right. reflexivity.
Defined.

(** ** The geometry cache, continued *)

Lemma resolve_not_found (lib : Libs) (env : Env) (routeId : string)
    (w : World) :
  rejects env Hgetall ("route:" ++ routeId) = false ->
  rejects env PolylineFindOne routeId = false ->
  rejects env RouteFindById routeId = false ->
  cache_miss (hashes w !! ("route:" ++ routeId)) ->
  polylines w !! routeId = None \/ routes w !! routeId = None ->
  getRouteGeometryAndStops lib env routeId w = (Ok (mkGeometry None None), w).
Proof.
  intros Hget Hp Hr Hmiss Hnone.
  apply cachedGeometry_miss in Hmiss.
  rewrite getRouteGeometryAndStops_run, Hget, Hmiss, geometryFromMongo_run, Hp, Hr.
  destruct Hnone as [-> | ->]; [reflexivity|].
  destruct (polylines w !! routeId); reflexivity.
Qed.

(** X7: when the cache has no usable entry and the durable store lacks the
    Polyline or the Route, [getRouteGeometryAndStops] returns null
    coordinates and null stops without throwing, and writes nothing: the
    miss is not cached. *)
Theorem X7_geometry_not_found (lib : Libs) (env : Env) (routeId : string)
    (w : World) :
  rejects env Hgetall ("route:" ++ routeId) = false ->
  rejects env PolylineFindOne routeId = false ->
  rejects env RouteFindById routeId = false ->
  cache_miss (hashes w !! ("route:" ++ routeId)) ->
  polylines w !! routeId = None \/ routes w !! routeId = None ->
  getRouteGeometryAndStops lib env routeId w = (Ok (mkGeometry None None), w).
Proof.
  apply resolve_not_found.
Qed.

Lemma X7_geometry_not_found_witness :
  getRouteGeometryAndStops axis_lib (calm 0) "R2" depot
  = (Ok (mkGeometry None None), depot).
Proof.
  apply (X7_geometry_not_found axis_lib (calm 0) "R2" depot).
  - reflexivity.
  - reflexivity.
  - reflexivity.
  - vm_compute. exact I.
  - left. vm_compute. reflexivity.
Defined.




(** ** What the handlers leave alone *)

Section Frames.

Variable lib : Libs.
Variable env : Env.

Lemma hset_frame (key : string) (obj : list (string * cell)) (w w' : World)
    (r : result unit) :
  hset env key obj w = (r, w') ->
  same_but_hashes w w'
  /\ forall k, k <> key -> hashes w' !! k = hashes w !! k.
Proof.
  unfold hset, call. destruct (rejects env Hset key); intros H;
    injection H as <- <-; (split; [unfold same_but_hashes; cbn; auto 10|]);
    [reflexivity|].
  intros k Hk. cbn. apply lookup_insert_ne. congruence.
Qed.

Lemma lpush_frame (key : string) (v : cell) (w w' : World) (r : result unit) :
  lpush env key v w = (r, w') ->
  emitted w' = emitted w /\ io w' = io w /\ hashes w' = hashes w.
Proof.
  unfold lpush, call. destruct (rejects env Lpush key); intros H;
    injection H as <- <-; auto.
Qed.

Lemma ltrim_frame (key : string) (a b : nat) (w w' : World) (r : result unit) :
  ltrim env key a b w = (r, w') ->
  emitted w' = emitted w /\ io w' = io w /\ hashes w' = hashes w.
Proof.
  unfold ltrim, call. destruct (rejects env Ltrim key); intros H;
    injection H as <- <-; auto.
Qed.

Lemma lrange_frame (key : string) (a b : nat) (w w' : World)
    (r : result (list cell)) :
  lrange env key a b w = (r, w') -> w' = w.
Proof.
  unfold lrange, call. destruct (rejects env Lrange key); intros H;
    injection H as <- <-; reflexivity.
Qed.


Lemma lift_frame {A} (o : option A) (w w' : World) (r : result A) :
  lift o w = (r, w') -> w' = w.
Proof.
  destruct o; cbn; intros H; injection H as <- <-; reflexivity.
Qed.

(** Lines 107-111 leave the emissions and the hashes alone. *)
Lemma ring_update_frame (b : LocationUpdate) (id : string) (w w' : World)
    (r : result unit) :
  (if isFinite (Number (speed b)) then
     exec lpush env ("bus:" ++ id ++ ":speeds") (StringOf (speed b));
     ltrim env ("bus:" ++ id ++ ":speeds") 0 2
   else ret tt) w = (r, w') ->
  emitted w' = emitted w /\ io w' = io w /\ hashes w' = hashes w.
Proof.
  destruct (isFinite (Number (speed b))).
  - unfold bind.
    destruct (lpush env _ _ w) as [[[]|] w1] eqn:Hp;
      apply lpush_frame in Hp as (He1 & Hi1 & Hh1).
    + intros H. apply ltrim_frame in H as (He2 & Hi2 & Hh2).
      rewrite He2, Hi2, Hh2. auto.
    + intros H. injection H as <- <-. auto.
  - intros H. injection H as <- <-. auto.
Qed.

Lemma bind_Throw_inv {A B} (m : M A) (k : A -> M B) (w w' : World) :
  bind m k w = (Throw, w') ->
  m w = (Throw, w') \/ exists a w1, m w = (Ok a, w1) /\ k a w1 = (Throw, w').
Proof.
  unfold bind. destruct (m w) as [[a|] w1]; [eauto|].
  intros H. left. injection H as <-. reflexivity.
Qed.

(** A report that throws has emitted nothing. *)
Lemma trackAndBroadcast_Throw_frame (b : LocationUpdate) (id : string)
    (busDoc : BusDoc) (w w' : World) :
  trackAndBroadcast lib env b id busDoc w = (Throw, w') ->
  emitted w' = emitted w.
Proof.
  unfold trackAndBroadcast. intros H.
  apply bind_Throw_inv in H as [H | ([] & w0 & Hh & H)].
  { apply hset_frame in H as [(_ & _ & _ & _ & _ & He) _]. exact He. }
  apply hset_frame in Hh as [(_ & _ & _ & _ & _ & He0) _].
  apply bind_Throw_inv in H as [H | ([] & w1 & Hp & H)].
  { apply ring_update_frame in H as (He & _ & _). congruence. }
  apply ring_update_frame in Hp as (He1 & _ & _).
  apply bind_Throw_inv in H as [H | (speeds & w1' & Hl & H)].
  { apply lrange_frame in H as ->. congruence. }
  apply lrange_frame in Hl as ->.
  apply bind_Throw_inv in H as [H | (g & w2 & Hg & H)].
  { apply getRouteGeometryAndStops_frame in H as [(_ & _ & _ & _ & _ & He) _].
    congruence. }
  apply getRouteGeometryAndStops_frame in Hg as [(_ & _ & _ & _ & _ & He2) _].
  apply bind_Throw_inv in H as [H | (r & w2' & Hc & H)].
  { apply lift_frame in H as ->. congruence. }
  apply lift_frame in Hc as ->.
  apply bind_Throw_inv in H as [H | ([] & w3 & Hemit & H)].
  { rewrite emitBusUpdate_run in H. discriminate. }
  discriminate.
Qed.

End Frames.

Lemma no_emit_unless_200 (lib : Libs) (env : Env)
    (req_body : option LocationUpdate) (w w' : World) (resp : Response) :
  updateBusLocation lib env req_body w = (Ok resp, w') ->
  status resp <> 200%nat ->
  emitted w' = emitted w.
Proof.
  unfold updateBusLocation, try_catch.
  destruct (validateAndTrack lib env req_body w) as [[r|] w1] eqn:Hv.
  - intros H Hne. injection H as <- <-.
    revert Hv. unfold validateAndTrack.
    destruct (falsy _ || _ || _).
    { intros H. injection H as <- <-. auto. }
    unfold Bus_findOne, call, bind.
    destruct (rejects env BusFindOne _); [discriminate|].
    destruct (buses w !! _) as [busDoc|].
    + intros H. apply trackAndBroadcast_status in H. congruence.
    + intros H. injection H as <- <-. auto.
  - intros H _. injection H as <- <-.
    revert Hv. unfold validateAndTrack.
    destruct (falsy _ || _ || _); [discriminate|].
    unfold Bus_findOne, call, bind.
    destruct (rejects env BusFindOne _).
    { intros H. injection H as <-. reflexivity. }
    destruct (buses w !! _) as [busDoc|]; [|discriminate].
    apply trackAndBroadcast_Throw_frame.
Qed.

(** X9: an ingest call that is not answered 200 has broadcast nothing; and
    when it is answered 400 or 404 it has changed nothing at all. *)
Theorem X9_no_broadcast_without_200 (lib : Libs) (env : Env)
    (req_body : option LocationUpdate) (w w' : World) (resp : Response) :
  updateBusLocation lib env req_body w = (Ok resp, w') ->
  status resp <> 200%nat ->
  emitted w' = emitted w
  /\ (status resp = 400%nat \/ status resp = 404%nat -> w' = w).
Proof.
  intros H Hne. split; [exact (no_emit_unless_200 lib env req_body w w' resp H Hne)|].
  destruct (updateBusLocation_cases lib env req_body w)
    as (r & w1 & Hrun & Hcases).
  rewrite Hrun in H. injection H as <- <-.
  destruct Hcases as [[-> _] | [H5|H2]]; [reflexivity | |]; intros [?|?]; lia.
Qed.

Lemma X9_no_broadcast_without_200_witness :
  emitted (snd (updateBusLocation axis_lib (cache_write_down 0) (report (Fin 40))
                  depot))
  = emitted depot
  /\ (status (answer (updateBusLocation axis_lib (cache_write_down 0)
                        (report (Fin 40)) depot)) = 400%nat
      \/ status (answer (updateBusLocation axis_lib (cache_write_down 0)
                           (report (Fin 40)) depot)) = 404%nat ->
      snd (updateBusLocation axis_lib (cache_write_down 0) (report (Fin 40)) depot)
      = depot).
Proof.
  apply (X9_no_broadcast_without_200 axis_lib (cache_write_down 0)
           (report (Fin 40)) depot).
  - vm_compute. reflexivity.
  - vm_compute. discriminate.
Defined.

(** X10: while the Socket.IO server has not been initialised, an ingest call
    still runs to its answer - 200 included - and emits nothing. *)
Theorem X10_no_emission_before_initSocket (lib : Libs) (env : Env)
    (req_body : option LocationUpdate) (w w' : World) (resp : Response) :
  updateBusLocation lib env req_body w = (Ok resp, w') ->
  io w = false ->
  emitted w' = emitted w.
Proof.
  intros H Hio.
  destruct (Nat.eq_dec (status resp) 200%nat) as [H200 | Hne].
  - apply updateBusLocation_2xx_inv in H
      as (b & id & busDoc & _ & _ & _ & _ & _ & H); [|lia].
    apply trackAndBroadcast_Ok_inv in H
      as (g & w2 & sn & etas & Hg & _ & _ & He).
    apply getRouteGeometryAndStops_frame in Hg
      as [(_ & _ & _ & _ & Hio2 & Hem2) _].
    destruct (recorded_frame env b id (bus_routeId busDoc) w) as (_ & Hio1 & Hem1).
    rewrite emitBusUpdate_run, Hio2, Hio1, Hio in He. injection He as <-.
    congruence.
  - eapply no_emit_unless_200; eauto.
Qed.

Lemma X10_no_emission_before_initSocket_witness :
  status (answer (updateBusLocation axis_lib (calm 0) (report (Fin 40))
                    depot_without_socket)) = 200%nat
  /\ emitted (snd (updateBusLocation axis_lib (calm 0) (report (Fin 40))
                     depot_without_socket))
     = emitted depot_without_socket.
Proof.
  split; [vm_compute; reflexivity|].
  apply (X10_no_emission_before_initSocket axis_lib (calm 0) (report (Fin 40))
           depot_without_socket _
           (answer (updateBusLocation axis_lib (calm 0) (report (Fin 40))
                      depot_without_socket))).
  - vm_compute. reflexivity.
  - reflexivity.
Defined.



(** ** Reports, from request to answer *)


Section Forward.

Variable lib : Libs.
Variable env : Env.
Hypothesis Hcalm : all_answer env.

(** With the stores answering, lines 100-111 leave the state [recorded]. *)
Lemma record_forward (b : LocationUpdate) (id routeId : string) (w : World)
    {A} (k : M A) :
  (exec hset env ("bus:" ++ id) [("lastLat", StringOf (lat b));
                                 ("lastLng", StringOf (lng b));
                                 ("lastUpdated", CIso (now env));
                                 ("routeId", CText routeId)];
   exec (if isFinite (Number (speed b)) then
           exec lpush env ("bus:" ++ id ++ ":speeds") (StringOf (speed b));
           ltrim env ("bus:" ++ id ++ ":speeds") 0 2
         else ret tt);
   k) w
  = k (recorded env b id routeId w).
Proof.
  unfold hset, lpush, ltrim, call, bind, recorded. rewrite !Hcalm.
  destruct (isFinite (Number (speed b))); cbn [ret]; [|reflexivity].
  cbn [lists set_lists set_hashes hashes].
  rewrite lookup_insert_eq, insert_insert_eq. reflexivity.
Qed.

(** With the stores answering, a report is answered from the geometry and
    the estimate alone. *)
Lemma trackAndBroadcast_forward (b : LocationUpdate) (id : string)
    (busDoc : BusDoc) (w w2 : World) (g : Geometry) (sn : option LatLng)
    (etas : list EtaStop) :
  getRouteGeometryAndStops lib env (bus_routeId busDoc)
    (recorded env b id (bus_routeId busDoc) w) = (Ok g, w2) ->
  computeSnappedAndEtas lib (coords g) (stops g)
    (mkLatLng (Number (lat b)) (Number (lng b)))
    (computeAverageSpeed
       (take 3 (speedRing (recorded env b id (bus_routeId busDoc) w) id)))
  = Some (sn, etas) ->
  trackAndBroadcast lib env b id busDoc w
  = (Ok (mkResponse 200
           (Composite (Some true)
              (reportPayload env b id (bus_routeId busDoc)
                 (speedRing (recorded env b id (bus_routeId busDoc) w) id)
                 sn etas))),
     snd (emitBusUpdate (bus_routeId busDoc)
            (reportPayload env b id (bus_routeId busDoc)
               (speedRing (recorded env b id (bus_routeId busDoc) w) id)
               sn etas) w2)).
Proof.
  intros Hg Hc. unfold trackAndBroadcast. rewrite record_forward.
  unfold lrange, call. rewrite Hcalm. unfold bind at 1.
  change (take (3 - 0) (drop 0 ?l)) with (take 3 l).
  fold (speedRing (recorded env b id (bus_routeId busDoc) w) id).
  unfold bind at 1. rewrite Hg.
  unfold bind at 1. rewrite Hc. cbn [lift ret].
  unfold bind. rewrite !emitBusUpdate_run. reflexivity.
Qed.

(** With the stores answering, a valid report of a known bus is answered by
    [trackAndBroadcast]. *)
Lemma updateBusLocation_forward (b : LocationUpdate) (id : string)
    (busDoc : BusDoc) (w w' : World) (r : Response) :
  busId b = Some id -> id <> "" ->
  isFinite (Number (lat b)) = true ->
  isFinite (Number (lng b)) = true ->
  buses w !! id = Some busDoc ->
  trackAndBroadcast lib env b id busDoc w = (Ok r, w') ->
  updateBusLocation lib env (Some b) w = (Ok r, w').
Proof.
  intros Hid Hne Hlat Hlng Hbus Ht.
  unfold updateBusLocation, try_catch, validateAndTrack.
  change (default (mkLocationUpdate None None None None) (Some b)) with b.
  rewrite Hid, Hlat, Hlng. cbn [falsy].
  change (default "" (Some id)) with id.
  apply String.eqb_neq in Hne. rewrite Hne. cbn [negb orb].
  unfold Bus_findOne, call, bind. rewrite Hcalm, Hbus, Ht. reflexivity.
Qed.

End Forward.

Lemma recorded_durable (env : Env) (b : LocationUpdate) (id routeId : string)
    (w : World) :
  routes (recorded env b id routeId w) = routes w
  /\ polylines (recorded env b id routeId w) = polylines w
  /\ forall k, k <> "bus:" ++ id ->
               hashes (recorded env b id routeId w) !! k = hashes w !! k.
Proof.
  unfold recorded. destruct (isFinite (Number (speed b)));
    cbn [routes polylines hashes set_hashes set_lists];
    (split; [reflexivity|]); (split; [reflexivity|]);
    intros k Hk; apply lookup_insert_ne; congruence.
Qed.

(** X12: a valid report of a known bus whose route has no cached geometry
    and no Polyline (or no Route) in the durable store is still answered
    200: the composite carries the reported position itself as
    snappedLocation and no etaStops, and the route's cache entry is left as
    it was. *)
Theorem X12_report_without_geometry (lib : Libs) (env : Env)
    (b : LocationUpdate) (id : string) (busDoc : BusDoc) (w : World) :
  all_answer env ->
  busId b = Some id -> id <> "" ->
  isFinite (Number (lat b)) = true ->
  isFinite (Number (lng b)) = true ->
  buses w !! id = Some busDoc ->
  cache_miss (hashes w !! ("route:" ++ bus_routeId busDoc)) ->
  polylines w !! bus_routeId busDoc = None
  \/ routes w !! bus_routeId busDoc = None ->
  exists p w',
    updateBusLocation lib env (Some b) w
    = (Ok (mkResponse 200 (Composite (Some true) p)), w')
    /\ snappedLocation p = Some (mkLatLng (Number (lat b)) (Number (lng b)))
    /\ etaStops p = []
    /\ hashes w' !! ("route:" ++ bus_routeId busDoc)
       = hashes w !! ("route:" ++ bus_routeId busDoc).
Proof.
  intros Hcalm Hid Hne Hlat Hlng Hbus Hmiss Hnone.
  destruct (recorded_durable env b id (bus_routeId busDoc) w) as (Hr & Hp & Hh).
  assert (Hkey : "route:" ++ bus_routeId busDoc <> "bus:" ++ id).
  { intros E. symmetry in E. exact (bus_key_not_route_key _ _ E). }
  assert (Hg : getRouteGeometryAndStops lib env (bus_routeId busDoc)
                 (recorded env b id (bus_routeId busDoc) w)
               = (Ok (mkGeometry None None),
                  recorded env b id (bus_routeId busDoc) w)).
  { apply resolve_not_found; try apply Hcalm.
    - rewrite (Hh _ Hkey). exact Hmiss.
    - rewrite Hr, Hp. exact Hnone. }
  eexists _, _. split.
  - apply (updateBusLocation_forward lib env Hcalm b id busDoc); try assumption.
    apply (trackAndBroadcast_forward lib env Hcalm b id busDoc w
             (recorded env b id (bus_routeId busDoc) w)
             (mkGeometry None None) None []);
      [exact Hg | reflexivity].
  - split; [reflexivity|]. split; [reflexivity|].
    rewrite emitBusUpdate_run. cbn [snd].
    destruct (io _); cbn [hashes set_emitted]; apply Hh, Hkey.
Qed.

Lemma X12_report_without_geometry_witness :
  exists p w',
    updateBusLocation axis_lib (calm 0)
      (Some (mkLocationUpdate (Some "V2") (Some (Fin 3)) (Some (Fin 7))
                              (Some (Fin 25)))) depot_unrouted
    = (Ok (mkResponse 200 (Composite (Some true) p)), w')
    /\ snappedLocation p = Some (mkLatLng (Fin 3) (Fin 7))
    /\ etaStops p = []
    /\ hashes w' !! "route:R9" = hashes depot_unrouted !! "route:R9".
Proof.
  apply (X12_report_without_geometry axis_lib (calm 0)
           (mkLocationUpdate (Some "V2") (Some (Fin 3)) (Some (Fin 7))
                             (Some (Fin 25)))
           "V2" (mkBusDoc "R9") depot_unrouted).
  - intros o key. reflexivity.
  - reflexivity.
  - discriminate.
  - reflexivity.
  - reflexivity.
  - vm_compute. reflexivity.
  - vm_compute. exact I.
  - left. vm_compute. reflexivity.
Defined.

(** ** A live query after a report *)



Section QueryAfterReport.

Variable lib : Libs.
Variable env : Env.
Hypothesis Hcalm : all_answer env.


End QueryAfterReport.





(** ** The ring as a window *)





(** ** Rooms *)

Lemma route_room_inj (r r' : string) : "route:" ++ r = "route:" ++ r' -> r = r'.
Proof.
  cbn. intros H. injection H as H. exact H.
Qed.

(** X15: whether the updates of route R reach a socket is decided by the
    last subscribe:route or unsubscribe:route message it sent for R: after
    subscribing they do, after unsubscribing they do not, and any other
    message (another route, an empty routeId, another event name) leaves it
    as it was. *)
Theorem X15_room_membership (R : string) (rooms : gset string)
    (ev : ClientEvent) :
  R <> "" ->
  (ev = mkClientEvent "subscribe:route" (Some R) ->
   "route:" ++ R ∈ onClientEvent rooms ev)
  /\ (ev = mkClientEvent "unsubscribe:route" (Some R) ->
      "route:" ++ R ∉ onClientEvent rooms ev)
  /\ (ev_routeId ev <> Some R
      \/ (ev_name ev <> "subscribe:route" /\ ev_name ev <> "unsubscribe:route") ->
      ("route:" ++ R ∈ onClientEvent rooms ev <-> "route:" ++ R ∈ rooms)).
Proof.
  intros HR. apply String.eqb_neq in HR as HRb.
  split; [|split].
  - intros ->. unfold onClientEvent. cbn [ev_name ev_routeId falsy].
    change ("subscribe:route" =? "subscribe:route")%string with true.
    rewrite HRb. cbn [negb default]. set_solver.
  - intros ->. unfold onClientEvent. cbn [ev_name ev_routeId falsy].
    change ("unsubscribe:route" =? "subscribe:route")%string with false.
    change ("unsubscribe:route" =? "unsubscribe:route")%string with true.
    rewrite HRb. cbn [negb default]. set_solver.
  - intros Hother. unfold onClientEvent.
    destruct (String.eqb (ev_name ev) "subscribe:route") eqn:Es.
    + apply String.eqb_eq in Es.
      destruct Hother as [Hr | [Hn _]]; [|congruence].
      destruct (ev_routeId ev) as [r'|]; cbn [falsy negb default]; [|reflexivity].
      destruct (String.eqb r' ""); cbn [negb]; [reflexivity|].
      assert ("route:" ++ R <> "route:" ++ r').
      { intros E. apply route_room_inj in E. congruence. }
      set_solver.
    + destruct (String.eqb (ev_name ev) "unsubscribe:route") eqn:Eu;
        [|reflexivity].
      apply String.eqb_eq in Eu.
      destruct Hother as [Hr | [_ Hn]]; [|congruence].
      destruct (ev_routeId ev) as [r'|]; cbn [falsy negb default]; [|reflexivity].
      destruct (String.eqb r' ""); cbn [negb]; [reflexivity|].
      assert ("route:" ++ R <> "route:" ++ r').
      { intros E. apply route_room_inj in E. congruence. }
      set_solver.
Qed.

Lemma X15_room_membership_witness :
  "route:R1" ∈ onClientEvent ∅ (mkClientEvent "subscribe:route" (Some "R1")).
Proof.
  destruct (X15_room_membership "R1" ∅
              (mkClientEvent "subscribe:route" (Some "R1"))) as (Hsub & _ & _).
  - discriminate.
  - apply Hsub. reflexivity.
Defined.




(** ** The report queue of the driver app *)

Section Flush.

Variable Net : Type.
Variable send : LocationUpdate -> Net -> bool * Net.

Lemma flushStep_eq (failed : list QueuedLocationUpdate) (s : Net)
    (q : QueuedLocationUpdate) :
  flushStep Net send (failed, s) q
  = ((failed
      ++ option_list
           (after_send q
              (fst (send (mkLocationUpdate (busId (q_update q)) (lat (q_update q))
                                           (lng (q_update q))
                                           (speed (q_update q))) s))))%list,
     snd (send (mkLocationUpdate (busId (q_update q)) (lat (q_update q))
                                 (lng (q_update q)) (speed (q_update q))) s)).
Proof.
  unfold flushStep, after_send. cbn [fst snd retryCount].
  destruct (fst (send _ s)); cbn [option_list]; [rewrite app_nil_r; reflexivity|].
  destruct (Z.ltb (retryCount q + 1) 5); cbn [option_list];
    [reflexivity | rewrite app_nil_r; reflexivity].
Qed.

Lemma flush_loop (queue : list QueuedLocationUpdate)
    (failed : list QueuedLocationUpdate) (s : Net) :
  foldl (flushStep Net send) (failed, s) queue
  = ((failed ++ omap (fun p => after_send (fst p) (snd p))
                     (zip queue (fst (sendAll send queue s))))%list,
     snd (sendAll send queue s)).
Proof.
  revert failed s. induction queue as [|q queue IH]; intros failed s.
  - cbn. rewrite app_nil_r. reflexivity.
  - cbn [foldl]. rewrite flushStep_eq, IH.
    cbn [sendAll fst snd zip zip_with omap list_omap].
    destruct (after_send q _); cbn [option_list].
    + rewrite <- app_assoc. reflexivity.
    + rewrite app_nil_r. reflexivity.
Qed.

Lemma length_zip_le {A B} (l : list A) (k : list B) :
  (length (zip l k) <= length l)%nat.
Proof.
  revert k. induction l as [|x l IH]; intros [|y k]; cbn; try lia.
  specialize (IH k). cbn in IH. lia.
Qed.

Lemma length_omap_le {A B} (f : A -> option B) (l : list A) :
  (length (omap f l) <= length l)%nat.
Proof.
  induction l as [|x l IH]; [reflexivity|].
  cbn [omap list_omap length]. destruct (f x); cbn [length]; lia.
Qed.

Lemma after_send_bound (item kept : QueuedLocationUpdate) (ok : bool) :
  after_send item ok = Some kept ->
  ok = false /\ timestamp kept = timestamp item
  /\ q_update kept = q_update item
  /\ retryCount kept = retryCount item + 1 /\ retryCount kept < 5.
Proof.
  unfold after_send. destruct ok; [discriminate|].
  destruct (Z.ltb (retryCount item + 1) 5) eqn:L; [|discriminate].
  intros H. injection H as <-. apply Z.ltb_lt in L. cbn. auto.
Qed.

(** X17: a flush of a non-empty stored queue sends every item once, in
    queue order, and writes back exactly the items whose send threw, in
    their order, each with retryCount raised by one - except those whose
    retryCount would reach 5, which are dropped; so the queue never grows
    and no stored item has a retryCount of 5 or more. *)
Theorem X17_flush_keeps_failed_items (queue : list QueuedLocationUpdate)
    (s : Net) :
  queue <> [] ->
  exists kept,
    flushQueue Net send false false (Holds queue) s
    = (Holds kept, snd (sendAll send queue s))
    /\ kept = omap (fun p => after_send (fst p) (snd p))
                   (zip queue (fst (sendAll send queue s)))
    /\ (length kept <= length queue)%nat
    /\ Forall (fun k => retryCount k < 5
                        /\ exists q, q ∈ queue
                                     /\ timestamp k = timestamp q
                                     /\ q_update k = q_update q
                                     /\ retryCount k = retryCount q + 1) kept.
Proof.
  intros Hne. eexists. split; [|split; [reflexivity|]].
  - unfold flushQueue. cbn [getQueue].
    destruct queue as [|q queue]; [congruence|].
    change (Nat.eqb (length (q :: queue)) 0) with false. cbv iota zeta.
    rewrite flush_loop. reflexivity.
  - split.
    + etransitivity; [apply length_omap_le | apply length_zip_le].
    + apply Forall_forall. intros k Hk.
      apply list_elem_of_omap in Hk as ([q ok] & Hin & Hk).
      apply after_send_bound in Hk as (_ & Ht & Hu & Hr & Hlt).
      split; [exact Hlt|]. exists q. split; [|auto].
      apply elem_of_zip_l in Hin. exact Hin.
Qed.

End Flush.

Lemma X17_flush_keeps_failed_items_witness :
  flushQueue nat flaky_server false false (Holds queued_reports) 0%nat
  = (Holds [mkQueued (mkLocationUpdate (Some "V1") (Some (Fin 0)) (Some (Fin 2))
                                       (Some (Fin 60))) 2000 1],
     4%nat).
Proof.
  destruct (X17_flush_keeps_failed_items nat flaky_server queued_reports 0%nat)
    as (kept & Hrun & -> & _).
  - discriminate.
  - rewrite Hrun. vm_compute. reflexivity.
Defined.

Lemma sendAll_unreachable (queue : list QueuedLocationUpdate) (attempts : nat) :
  sendAll unreachable_server queue attempts
  = (map (fun _ => false) queue, (attempts + length queue)%nat).
Proof.
  revert attempts. induction queue as [|q queue IH]; intros attempts.
  - cbn. f_equal. lia.
  - cbn [sendAll unreachable_server fst snd map length]. rewrite IH.
    cbn [fst snd]. f_equal. lia.
Qed.

(** One flush against the unreachable server, on items that have all
    failed [c] times so far. *)
Lemma flush_unreachable (c : Z) (queue : list QueuedLocationUpdate)
    (attempts : nat) :
  Forall (fun q => retryCount q = c) queue ->
  flushQueue nat unreachable_server false false (Holds queue) attempts
  = (Holds (if Z.ltb (c + 1) 5
            then map (fun q => mkQueued (q_update q) (timestamp q) (c + 1)) queue
            else []),
     (attempts + length queue)%nat).
Proof.
  intros Hall. unfold flushQueue. cbn [getQueue].
  destruct queue as [|q0 queue0] eqn:Eq.
  { cbn. destruct (Z.ltb (c + 1) 5); f_equal; lia. }
  change (Nat.eqb (length (q0 :: queue0)) 0) with false. cbv iota zeta.
  rewrite <- Eq in *. clear Eq q0 queue0.
  rewrite flush_loop, sendAll_unreachable. cbn [fst snd app].
  f_equal. f_equal.
  induction Hall as [|q queue Hq _ IH].
  - destruct (Z.ltb (c + 1) 5); reflexivity.
  - cbn [map].
    change (zip (q :: queue) (false :: map (fun _ => false) queue))
      with ((q, false) :: zip queue (map (fun _ => false) queue)).
    cbn [omap list_omap]. rewrite IH. unfold after_send. cbn [fst snd].
    rewrite Hq. destruct (Z.ltb (c + 1) 5); reflexivity.
Qed.

(** X18: while the server cannot be reached, a freshly queued report
    (retryCount 0) is sent once per flush for five flushes and is then
    dropped from the queue: after five flushes the stored queue is empty,
    five sends have been made per report, and further flushes send
    nothing. *)
Theorem X18_five_attempts_then_dropped (queue : list QueuedLocationUpdate)
    (more : nat) :
  Forall (fun q => retryCount q = 0) queue ->
  flushes_unreachable (5 + more) (Holds queue) 0
  = (Holds [], (5 * length queue)%nat).
Proof.
  intros Hall. unfold flushes_unreachable.
  rewrite Nat.add_comm, Nat.iter_add.
  assert (H5 : Nat.iter 5
                 (fun x => flushQueue nat unreachable_server false false
                             (fst x) (snd x))
                 (Holds queue, 0%nat)
               = (Holds [], (5 * length queue)%nat)).
  { unfold Nat.iter. cbn [nat_rect fst snd].
    assert (Hbump : forall c (l : list QueuedLocationUpdate),
              Forall (fun q => retryCount q
                               = c)
                     (map (fun q => mkQueued (q_update q) (timestamp q) c) l)).
    { intros c l. apply Forall_forall. intros x Hx.
      apply list_elem_of_fmap in Hx as (y & -> & _). reflexivity. }
    rewrite (flush_unreachable 0 queue 0 Hall).
    change (Z.ltb (0 + 1) 5) with true. change (0 + 1) with 1. cbn [fst snd].
    rewrite (flush_unreachable 1 _ _ (Hbump 1 queue)).
    change (Z.ltb (1 + 1) 5) with true. change (1 + 1) with 2. cbn [fst snd].
    rewrite (flush_unreachable 2 _ _ (Hbump 2 _)).
    change (Z.ltb (2 + 1) 5) with true. change (2 + 1) with 3. cbn [fst snd].
    rewrite (flush_unreachable 3 _ _ (Hbump 3 _)).
    change (Z.ltb (3 + 1) 5) with true. change (3 + 1) with 4. cbn [fst snd].
    rewrite (flush_unreachable 4 _ _ (Hbump 4 _)).
    change (Z.ltb (4 + 1) 5) with false. cbn [fst snd].
    rewrite !length_map. f_equal. lia. }
  rewrite H5. clear H5. induction more as [|more IH]; [reflexivity|].
  unfold Nat.iter in *. cbn [nat_rect]. rewrite IH. reflexivity.
Qed.

Lemma X18_five_attempts_then_dropped_witness :
  flushes_unreachable 7
    (Holds [mkQueued (mkLocationUpdate (Some "V1") (Some (Fin 0)) (Some (Fin 1))
                                       (Some (Fin 30))) 1000 0;
            mkQueued (mkLocationUpdate (Some "V1") (Some (Fin 0)) (Some (Fin 2))
                                       (Some (Fin 60))) 2000 0]) 0
  = (Holds [], 10%nat).
Proof.
  apply (X18_five_attempts_then_dropped
           [mkQueued (mkLocationUpdate (Some "V1") (Some (Fin 0)) (Some (Fin 1))
                                       (Some (Fin 30))) 1000 0;
            mkQueued (mkLocationUpdate (Some "V1") (Some (Fin 0)) (Some (Fin 2))
                                       (Some (Fin 60))) 2000 0] 2).
  repeat constructor.
Defined.








(** ** The background location task *)



Lemma poorAccuracy_over_100 (c : Coords) (a : num) :
  c_accuracy c = Some a -> jlt (Fin 100) a = true -> poorAccuracy c = true.
Proof.
  intros Ha Hlt. unfold poorAccuracy. rewrite Ha.
  destruct a as [| | |q]; try exact Hlt; try discriminate.
  rewrite Hlt, andb_true_r. apply negb_true_iff, Qzero_false.
  cbn in Hlt. apply Qltb_true in Hlt. intros E. rewrite E in Hlt.
  revert Hlt. apply Qle_not_lt. discriminate.
Qed.

(** X21: a report the background task could not send is stored with
    retry count 0 and is sent again, once, by the next flush of the queue:
    the queue ends empty when that send resolves, and holds the report with
    retry count 1 when it throws too. *)
Theorem X21_unsent_report_is_flushed {Net : Type}
    (send : LocationUpdate -> Net -> bool * Net) (now : Z) (id : string)
    (c : Coords) (rest : list Coords) (st : Stored) (s : Net) :
  id <> "" ->
  poorAccuracy c = false ->
  getQueue false st = [] ->
  fst (send (taskReport id c) s) = false ->
  let u := taskReport id c in
  let s1 := snd (send u s) in
  let after_task :=
    locationTask send now false false false (Some (c :: rest)) false (Some id)
                 st s in
  after_task = (Holds [mkQueued u now 0], s1)
  /\ flushQueue Net send false false (fst after_task) (snd after_task)
     = (Holds (if fst (send u s1) then [] else [mkQueued u now 1]),
        snd (send u s1)).
Proof.
  intros Hid Hacc Hq Hfail. cbv zeta.
  assert (E : locationTask send now false false false (Some (c :: rest)) false
                           (Some id) st s
              = (Holds [mkQueued (taskReport id c) now 0],
                 snd (send (taskReport id c) s))).
  { unfold locationTask.
    apply String.eqb_neq in Hid. rewrite Hid, Hacc. cbv zeta.
    rewrite Hfail. unfold addToQueue. rewrite Hq. reflexivity. }
  split; [exact E|]. rewrite E. cbn [fst snd].
  unfold flushQueue. cbn [getQueue length Nat.eqb foldl].
  unfold flushStep. cbn [fst snd q_update timestamp retryCount app].
  change (mkLocationUpdate (busId (taskReport id c)) (lat (taskReport id c))
                           (lng (taskReport id c)) (speed (taskReport id c)))
    with (taskReport id c).
  destruct (fst (send (taskReport id c) (snd (send (taskReport id c) s))));
    reflexivity.
Qed.

Lemma X21_unsent_report_is_flushed_witness :
  let c := mkCoords (Fin 0) (Fin 4) None (Some (Fin 12)) in
  let after_task :=
    locationTask late_server 7000 false false false (Some [c]) false (Some "V1")
                 NoItem 0%nat in
  after_task = (Holds [mkQueued (taskReport "V1" c) 7000 0], 1%nat)
  /\ flushQueue nat late_server false false (fst after_task) (snd after_task)
     = (Holds [], 2%nat).
Proof.
  apply (X21_unsent_report_is_flushed late_server 7000 "V1"
           (mkCoords (Fin 0) (Fin 4) None (Some (Fin 12))) [] NoItem 0%nat).
  - discriminate.
  - reflexivity.
  - reflexivity.
  - reflexivity.
Defined.

(** X22: the background task sends nothing and stores nothing when it is
    run with an error, without data, with an empty list of locations,
    without a readable non-empty bus id, or with a first location whose
    accuracy is worse than 100 metres. *)
Theorem X22_task_skips {Net : Type}
    (send : LocationUpdate -> Net -> bool * Net) (now : Z)
    (getItem_fails setItem_fails error : bool) (data : option (list Coords))
    (busId_fails : bool) (current_bus_id : option string)
    (st : Stored) (s : Net) :
  error = true \/ data = None \/ data = Some [] \/ busId_fails = true
  \/ current_bus_id = None \/ current_bus_id = Some ""
  \/ (exists c rest a, data = Some (c :: rest) /\ c_accuracy c = Some a
                       /\ jlt (Fin 100) a = true) ->
  locationTask send now getItem_fails setItem_fails error data busId_fails
               current_bus_id st s
  = (st, s).
Proof.
  unfold locationTask.
  intros H. destruct error; [reflexivity|].
  destruct H as [H | [-> | [-> | H]]]; [discriminate | reflexivity | reflexivity |].
  destruct data as [[|location l]|]; try reflexivity.
  destruct H as [-> | [-> | [-> | (c & rest & a & E & Ha & Hlt)]]];
    try reflexivity.
  - destruct busId_fails; reflexivity.
  - destruct busId_fails; reflexivity.
  - injection E as <- <-. destruct busId_fails; [reflexivity|].
    destruct current_bus_id as [b|]; [|reflexivity].
    destruct (String.eqb b ""); [reflexivity|].
    rewrite (poorAccuracy_over_100 location a Ha Hlt). reflexivity.
Qed.

Lemma X22_task_skips_witness :
  locationTask late_server 7000 false false false
    (Some [mkCoords (Fin 0) (Fin 4) (Some (Fin 9)) (Some (Fin 150))]) false
    (Some "V1") NoItem 0%nat
  = (NoItem, 0%nat).
Proof.
  apply X22_task_skips. do 6 right.
  exists (mkCoords (Fin 0) (Fin 4) (Some (Fin 9)) (Some (Fin 150))), [], (Fin 150).
  repeat split.
Defined.

(** ** The retry wrapper of the directions service *)

Section RetryFacts.

Variable R : Type.
Variable callDirectionsORS : nat -> R + string.

Lemma backoff_step (delay : Z) (k : nat) :
  delay + delay * 2 * (2 ^ Z.of_nat k - 1)
  = delay * (2 ^ Z.of_nat (S k) - 1).
Proof.
  rewrite Nat2Z.inj_succ, Z.pow_succ_r by lia. ring.
Qed.

Lemma retryLoop_first_success (route : R) (retries k : nat) :
  forall (fuel attempt : nat) (delay : Z) (calls : nat) (waited : Z),
    (forall j, (j < k)%nat -> exists err, callDirectionsORS (calls + j) = inr err) ->
    callDirectionsORS (calls + k) = inl route ->
    (attempt + k <= retries)%nat ->
    (k < fuel)%nat ->
    retryLoop R callDirectionsORS fuel retries attempt delay calls waited
    = Some (inl route, S (calls + k), waited + delay * (2 ^ Z.of_nat k - 1)).
Proof.
  induction k as [|k IH]; intros fuel attempt delay calls waited Hfail Hok Hle Hfuel.
  - destruct fuel as [|fuel]; [lia|]. cbn [retryLoop].
    rewrite Nat.add_0_r in Hok. rewrite Hok, Nat.add_0_r. do 2 f_equal.
    cbn. lia.
  - destruct fuel as [|fuel]; [lia|]. cbn [retryLoop].
    destruct (Hfail 0%nat ltac:(lia)) as (err & E).
    rewrite Nat.add_0_r in E. rewrite E.
    replace (Nat.leb retries attempt) with false
      by (symmetry; apply Nat.leb_gt; lia).
    rewrite (IH fuel (S attempt) (delay * 2) (S calls) (waited + delay)).
    + rewrite <- Z.add_assoc, backoff_step. do 3 f_equal. lia.
    + intros j Hj. replace (S calls + j)%nat with (calls + S j)%nat by lia.
      apply Hfail. lia.
    + replace (S calls + k)%nat with (calls + S k)%nat by lia. exact Hok.
    + lia.
    + lia.
Qed.

Lemma retryLoop_exhausted (last : string) (retries k : nat) :
  forall (fuel attempt : nat) (delay : Z) (calls : nat) (waited : Z),
    (forall j, (j < k)%nat -> exists err, callDirectionsORS (calls + j) = inr err) ->
    callDirectionsORS (calls + k) = inr last ->
    (attempt + k = retries)%nat ->
    (k < fuel)%nat ->
    retryLoop R callDirectionsORS fuel retries attempt delay calls waited
    = Some (inr last, S (calls + k), waited + delay * (2 ^ Z.of_nat k - 1)).
Proof.
  induction k as [|k IH]; intros fuel attempt delay calls waited Hfail Hlast Hle Hfuel.
  - destruct fuel as [|fuel]; [lia|]. cbn [retryLoop].
    rewrite Nat.add_0_r in Hlast. rewrite Hlast, Nat.add_0_r.
    replace (Nat.leb retries attempt) with true
      by (symmetry; apply Nat.leb_le; lia).
    do 2 f_equal. cbn. lia.
  - destruct fuel as [|fuel]; [lia|]. cbn [retryLoop].
    destruct (Hfail 0%nat ltac:(lia)) as (err & E).
    rewrite Nat.add_0_r in E. rewrite E.
    replace (Nat.leb retries attempt) with false
      by (symmetry; apply Nat.leb_gt; lia).
    rewrite (IH fuel (S attempt) (delay * 2) (S calls) (waited + delay)).
    + rewrite <- Z.add_assoc, backoff_step. do 3 f_equal. lia.
    + intros j Hj. replace (S calls + j)%nat with (calls + S j)%nat by lia.
      apply Hfail. lia.
    + replace (S calls + k)%nat with (calls + S k)%nat by lia. exact Hlast.
    + lia.
    + lia.
Qed.

(** X23: [callORSWithRetry] returns the route of the first call of
    [callDirectionsORS] that succeeds, provided that call is among the
    first [retries + 1] (three by default): when it is call number [k]
    (from 0), exactly [k + 1] calls are made and the waits between them add
    up to 500 * (2^k - 1) milliseconds (500, then 1000, then 2000, ...). *)
Theorem X23_retry_returns_first_success (retries : option nat) (route : R)
    (k fuel : nat) :
  (forall j, (j < k)%nat -> exists err, callDirectionsORS j = inr err) ->
  callDirectionsORS k = inl route ->
  (k <= default 2%nat retries)%nat ->
  (k < fuel)%nat ->
  callORSWithRetry R callDirectionsORS fuel retries
  = Some (inl route, S k, 500 * (2 ^ Z.of_nat k - 1)).
Proof.
  intros Hfail Hok Hle Hfuel. unfold callORSWithRetry.
  rewrite (retryLoop_first_success route _ k); try assumption; try lia.
  reflexivity.
Qed.

(** X24: when the first [retries + 1] calls of [callDirectionsORS] all
    throw (three by default), [callORSWithRetry] makes exactly these calls
    and then throws the error of the last one, having waited
    500 * (2^retries - 1) milliseconds in all; it never loops for ever. *)
Theorem X24_retry_gives_up (retries : option nat) (last : string) (fuel : nat) :
  (forall j, (j < default 2%nat retries)%nat ->
             exists err, callDirectionsORS j = inr err) ->
  callDirectionsORS (default 2%nat retries) = inr last ->
  (default 2%nat retries < fuel)%nat ->
  callORSWithRetry R callDirectionsORS fuel retries
  = Some (inr last, S (default 2%nat retries),
          500 * (2 ^ Z.of_nat (default 2%nat retries) - 1)).
Proof.
  intros Hfail Hlast Hfuel. unfold callORSWithRetry.
  rewrite (retryLoop_exhausted last _ (default 2%nat retries));
    try assumption; try lia.
  reflexivity.
Qed.

Lemma retryLoop_terminates (retries : nat) :
  forall (fuel attempt : nat) (delay : Z) (calls : nat) (waited : Z),
    (retries - attempt < fuel)%nat ->
    exists out n t,
      retryLoop R callDirectionsORS fuel retries attempt delay calls waited
      = Some (out, n, t)
      /\ (calls < n <= calls + S (retries - attempt))%nat.
Proof.
  induction fuel as [|fuel IH]; intros attempt delay calls waited Hfuel; [lia|].
  cbn [retryLoop]. destruct (callDirectionsORS calls) as [route|err].
  - exists (inl route), (S calls), waited. split; [reflexivity | lia].
  - destruct (Nat.leb retries attempt) eqn:E.
    + exists (inr err), (S calls), waited. split; [reflexivity | lia].
    + apply Nat.leb_gt in E.
      destruct (IH (S attempt) (delay * 2) (S calls) (waited + delay))
        as (out & n & t & -> & Hn); [lia|].
      exists out, n, t. split; [reflexivity | lia].
Qed.

(** X25: whatever the directions service does, [callORSWithRetry] comes
    back after at least one and at most [retries + 1] calls of
    [callDirectionsORS] (three with the default), with a route or with an
    error. *)
Theorem X25_retry_is_bounded (retries : option nat) (fuel : nat) :
  (default 2%nat retries < fuel)%nat ->
  exists out n t,
    callORSWithRetry R callDirectionsORS fuel retries = Some (out, n, t)
    /\ (1 <= n <= S (default 2%nat retries))%nat.
Proof.
  intros Hfuel. unfold callORSWithRetry.
  destruct (retryLoop_terminates (default 2%nat retries) fuel 0 500 0 0)
    as (out & n & t & E & Hn); [lia|].
  exists out, n, t. split; [exact E | lia].
Qed.

End RetryFacts.

Lemma X25_retry_is_bounded_witness :
  exists out n t,
    callORSWithRetry string third_time_lucky 3 None = Some (out, n, t)
    /\ (1 <= n <= 3)%nat.
Proof.
  apply (X25_retry_is_bounded string third_time_lucky None 3). cbn. lia.
Defined.

Lemma X23_retry_returns_first_success_witness :
  callORSWithRetry string third_time_lucky 3 None
  = Some (inl "encoded", 3%nat, 1500).
Proof.
  apply (X23_retry_returns_first_success string third_time_lucky None
           "encoded" 2 3).
  - intros [|[|j]] Hj; [eexists; reflexivity | eexists; reflexivity | lia].
  - reflexivity.
  - cbn. lia.
  - lia.
Defined.

Lemma X24_retry_gives_up_witness :
  callORSWithRetry string ors_down 3 None
  = Some (inr "ORS error 502: gateway", 3%nat, 1500).
Proof.
  apply (X24_retry_gives_up string ors_down None "ORS error 502: gateway" 3).
  - intros j _. eexists. reflexivity.
  - reflexivity.
  - cbn. lia.
Defined.

(** ** The polyline of a saved route *)

Section AdminFacts.

Variable lib : Libs.
Variable env : Env.
Variable callDirectionsORS : nat -> string + string.
Variable create_rejects : bool.

Lemma cache_push_run (_id geometry : string) (stops : list Stop) (w : World) :
  try_catch
    (await latLng <- lift (polyline_decode lib geometry);
     hset env ("route:" ++ _id)
          [("polyline", CCoords (map (fun p : num * num => (snd p, fst p)) latLng));
           ("stops", CStops stops)])
    (ret tt) w
  = (Ok tt,
     match polyline_decode lib geometry with
     | Some latLng =>
         if rejects env Hset ("route:" ++ _id) then w
         else set_hashes
                (<["route:" ++ _id :=
                     list_to_map
                       [("polyline",
                         CCoords (map (fun p : num * num => (snd p, fst p)) latLng));
                        ("stops", CStops stops)]
                     ∪ default ∅ (hashes w !! ("route:" ++ _id))]> (hashes w)) w
     | None => w
     end).
Proof.
  unfold try_catch, bind, lift, hset, call, ret, throw.
  destruct (polyline_decode lib geometry) as [latLng|]; [|reflexivity].
  destruct (rejects env Hset ("route:" ++ _id)); reflexivity.
Qed.

Lemma computeAndStorePolyline_run (_id : string) (route : RouteDoc) (w : World) :
  computeAndStorePolyline lib env callDirectionsORS create_rejects _id route w
  = if rejects env PolylineFindOne _id then (Ok None, w)
    else match polylines w !! _id with
         | Some _ => (Ok None, w)
         | None =>
             match route_stops route,
                   callORSWithRetry string callDirectionsORS 3 None with
             | Some _, Some (inl geometry, _, _) =>
                 if create_rejects then (Ok None, w)
                 else
                   let w1 := set_polylines
                               (<[_id := mkPolylineDoc geometry]> (polylines w)) w in
                   (Ok (Some (mkPolylineDoc geometry)),
                    snd (try_catch
                           (await latLng <- lift (polyline_decode lib geometry);
                            hset env ("route:" ++ _id)
                              [("polyline",
                                CCoords (map (fun p : num * num => (snd p, fst p))
                                             latLng));
                               ("stops", CStops (default [] (route_stops route)))])
                           (ret tt) w1))
             | _, _ => (Ok None, w)
             end
         end.
Proof.
  unfold computeAndStorePolyline, Polyline_findOne, call.
  unfold try_catch at 1. unfold bind at 1.
  destruct (rejects env PolylineFindOne _id); [reflexivity|].
  destruct (polylines w !! _id) as [doc|]; [reflexivity|].
  unfold bind at 1. destruct (route_stops route) as [stops|]; [|reflexivity].
  cbn [lift ret]. unfold bind at 1, directions.
  destruct (callORSWithRetry string callDirectionsORS 3 None)
    as [[[[geometry|err] n] t]|]; try reflexivity.
  cbn [lift ret]. unfold bind at 1, Polyline_create.
  destruct create_rejects; [reflexivity|].
  unfold bind at 1. cbv zeta. rewrite !cache_push_run. reflexivity.
Qed.

End AdminFacts.

(** X26: [computeAndStorePolyline] never throws.  When it resolves to a
    created document, the route had no polyline before and the collection
    now holds exactly this one more; when it resolves to [undefined] (a
    polyline already there, a store or directions failure, a route without
    stops, a rejected create) it has changed nothing. *)
Theorem X26_polyline_job_never_throws (lib : Libs) (env : Env)
    (callDirectionsORS : nat -> string + string) (create_rejects : bool)
    (_id : string) (route : RouteDoc) (w : World) :
  match computeAndStorePolyline lib env callDirectionsORS create_rejects
                                _id route w with
  | (Ok (Some created), w') =>
      polylines w !! _id = None
      /\ polylines w' = <[_id := created]> (polylines w)
      /\ buses w' = buses w /\ routes w' = routes w /\ lists w' = lists w
      /\ emitted w' = emitted w
  | (Ok None, w') => w' = w
  | (Throw, _) => False
  end.
Proof.
  rewrite computeAndStorePolyline_run.
  destruct (rejects env PolylineFindOne _id); [reflexivity|].
  destruct (polylines w !! _id) as [doc|] eqn:Ed; [reflexivity|].
  destruct (route_stops route) as [stops|]; [|reflexivity].
  destruct (callORSWithRetry string callDirectionsORS 3 None)
    as [[[[geometry|err] n] t]|]; try reflexivity.
  destruct create_rejects; [reflexivity|].
  cbv zeta. rewrite cache_push_run. cbn [snd].
  split; [reflexivity|].
  destruct (polyline_decode lib geometry) as [latLng|];
    [destruct (rejects env Hset ("route:" ++ _id))|]; repeat split.
Qed.

(** X27: a polyline created by [computeAndStorePolyline] for a saved route
    that had no cache entry is what live tracking resolves for that route
    afterwards, whether or not the job managed to write the cache: the
    decoded line with the coordinates swapped to [lng, lat], and the stops
    of the route. *)
Theorem X27_created_line_is_tracked (lib : Libs) (env env' : Env)
    (callDirectionsORS : nat -> string + string) (create_rejects : bool)
    (_id : string) (route : RouteDoc) (w w' : World) (created : PolylineDoc)
    (latLng : list (num * num)) :
  computeAndStorePolyline lib env callDirectionsORS create_rejects _id route w
  = (Ok (Some created), w') ->
  routes w !! _id = Some route ->
  hashes w !! ("route:" ++ _id) = None ->
  polyline_decode lib (geometry created) = Some latLng ->
  all_answer env' ->
  fst (getRouteGeometryAndStops lib env' _id w')
  = Ok (mkGeometry (Some (map (fun p : num * num => (snd p, fst p)) latLng))
                   (Some (default [] (route_stops route)))).
Proof.
  intros Hrun Hroute Hcache Hdec Henv.
  rewrite computeAndStorePolyline_run in Hrun.
  destruct (rejects env PolylineFindOne _id); [discriminate|].
  destruct (polylines w !! _id) as [doc|] eqn:Ed; [discriminate|].
  destruct (route_stops route) as [stops|] eqn:Es; [|discriminate].
  destruct (callORSWithRetry string callDirectionsORS 3 None)
    as [[[[enc|err] n] t]|]; try discriminate.
  destruct create_rejects; [discriminate|].
  cbv zeta in Hrun. rewrite cache_push_run in Hrun. cbn [snd] in Hrun.
  pose proof (f_equal snd Hrun) as Hw. pose proof (f_equal fst Hrun) as Hc.
  cbn [fst snd] in Hw, Hc. injection Hc as <-. cbn [geometry] in Hdec.
  rewrite Hdec in Hw. clear Hrun.
  rewrite getRouteGeometryAndStops_run, (Henv Hgetall).
  destruct (rejects env Hset ("route:" ++ _id)); subst w'.
  - cbn [hashes set_polylines]. rewrite Hcache. cbn [cachedGeometry].
    rewrite geometryFromMongo_run, (Henv PolylineFindOne), (Henv RouteFindById).
    cbn [polylines routes set_polylines]. rewrite lookup_insert_eq, Hroute.
    cbn [geometry]. rewrite Hdec. cbv zeta. rewrite (Henv Hset), Es.
    reflexivity.
  - cbn [hashes set_hashes]. rewrite lookup_insert_eq, cachedGeometry_rewritten.
    reflexivity.
Qed.

Lemma X27_created_line_is_tracked_witness :
  fst (getRouteGeometryAndStops axis_lib (calm 9000) "R1"
         (snd (computeAndStorePolyline axis_lib (cache_write_down 8000)
                 third_time_lucky false "R1" (mkRouteDoc (Some R1_stops))
                 depot_new_route)))
  = Ok (mkGeometry (Some [(Fin 0, Fin 0); (Fin 10, Fin 0)]) (Some R1_stops)).
Proof.
  apply (X27_created_line_is_tracked axis_lib (cache_write_down 8000) (calm 9000)
           third_time_lucky false "R1" (mkRouteDoc (Some R1_stops))
           depot_new_route _ (mkPolylineDoc "encoded")
           [(Fin 0, Fin 0); (Fin 0, Fin 10)]).
  - vm_compute. reflexivity.
  - vm_compute. reflexivity.
  - vm_compute. reflexivity.
  - reflexivity.
  - intros o key. reflexivity.
Defined.
